(** * goContextIO: signed requests for the Context.IO API

    A shallow embedding of the three versions of the [contextio] package
    (src/unnamed/part_000, src/contextIO.go, src/unnamed/part_001) and the
    properties of its request builder.

    Go strings and byte slices are [string] (a list of bytes); [url.Values]
    and [http.Header] are finite maps from strings to lists of strings, a nil
    map being the empty one.  Calls that leave the process or read its
    surroundings (the OAuth header with its nonce and timestamp, the HTTP
    round trip, the file system, the random multipart boundary, the order in
    which a map is ranged over) are effects of a small free monad [go]; the
    pure functions of Go's standard library that the package only calls
    ([url.Parse], [url.ParseQuery], [Values.Encode], ...) are methods of the
    class [GoLib], so that every general theorem holds for whatever these
    functions compute.  What is modelled of the library ([http.NewRequest],
    [URL.RequestURI], [multipart.Writer]) follows the Go sources of today. *)

From Stdlib Require Import ZArith Ascii String.
From stdpp Require Import base option list sorting strings gmap.

Local Open Scope string_scope.
Local Open Scope list_scope.
Local Open Scope Z_scope.

(** ** Values shared by the packages *)

(** A Go [error], identified by its message. *)
Definition error := string.

(** The run-time panics the package can raise. *)
Inductive panic :=
| SliceBoundsOutOfRange
| NilPointerDereference.

Abbreviation Values := (gmap string (list string)).

(** [len(m)] of a map: its number of keys. *)
Definition len (m : Values) : Z := Z.of_nat (size m).

(** [q[0:1]]: the first byte of [q]; out of range on the empty string. *)
Definition slice01 (q : string) : option string :=
  match q with
  | EmptyString => None
  | String a _ => Some (String a EmptyString)
  end.

Module io.
(** A reader, seen through the bytes it yields and the error (if any) that
    ends it instead of EOF. *)
Record Stream := mkStream { data : string; fail : option error }.
End io.

Module multipart.
Inductive Part :=
| FormFile (fieldname filename content : string)
| FormField (fieldname value : string).

(** The document a [multipart.Writer] has written to its buffer. *)
Record Writer := mkWriter
  { Boundary : string; parts : list Part; closed : bool }.

Definition NewWriter (boundary : string) : Writer :=
  {| Boundary := boundary; parts := []; closed := false |}.

(** Writes to a [bytes.Buffer] never fail: the errors are always nil. *)
Definition CreateFormFile (w : Writer) (fieldname filename : string)
  : Writer * option error :=
  ({| Boundary := Boundary w;
      parts := parts w ++ [FormFile fieldname filename ""];
      closed := closed w |}, None).

(** [Write] on the part returned by [CreateFormFile]. *)
Definition write_last (s : string) (ps : list Part) : list Part :=
  match reverse ps with
  | FormFile f n c :: rest => reverse (FormFile f n (c +:+ s) :: rest)
  | FormField f v :: rest => reverse (FormField f (v +:+ s) :: rest)
  | [] => []
  end.

Definition Write (w : Writer) (s : string) : Writer :=
  {| Boundary := Boundary w; parts := write_last s (parts w);
     closed := closed w |}.

Definition WriteField (w : Writer) (fieldname value : string)
  : Writer * option error :=
  ({| Boundary := Boundary w;
      parts := parts w ++ [FormField fieldname value];
      closed := closed w |}, None).

Definition Close (w : Writer) : Writer * option error :=
  ({| Boundary := Boundary w; parts := parts w; closed := true |}, None).

(** The boundary of a writer is made of hexadecimal digits, which
    [FormDataContentType] writes without quotes. *)
Definition FormDataContentType (w : Writer) : string :=
  "multipart/form-data; boundary=" +:+ Boundary w.

(** [io.Copy(part, f)]: everything [f] yields goes to the part; the error
    is the one that ended the reading. *)
Definition Copy (w : Writer) (f : io.Stream) : Writer * option error :=
  (Write w (io.data f), io.fail f).

(** The bytes on the wire. *)
Definition CRLF : string := String "013" (String "010" "").
(** [escapeQuotes]: a backslash before every backslash and quote, and a
    percent code for CR and LF. *)
Fixpoint escapeQuotes (s : string) : string :=
  match s with
  | "" => ""
  | String c rest =>
      (if bool_decide (c = "034"%char) || bool_decide (c = "092"%char)
       then String "092" (String c "")
       else if bool_decide (c = "013"%char) then "%0D"
       else if bool_decide (c = "010"%char) then "%0A"
       else String c "")
      +:+ escapeQuotes rest
  end.

Definition quoted (s : string) : string :=
  String "034" (escapeQuotes s) +:+ String "034" "".

Definition part_bytes (b : string) (first : bool) (p : Part) : string :=
  (if first then "" else CRLF) +:+ "--" +:+ b +:+ CRLF +:+
  match p with
  | FormFile f n c =>
      "Content-Disposition: form-data; name=" +:+ quoted f +:+
      "; filename=" +:+ quoted n +:+ CRLF +:+
      "Content-Type: application/octet-stream" +:+ CRLF +:+ CRLF +:+ c
  | FormField f v =>
      "Content-Disposition: form-data; name=" +:+ quoted f +:+ CRLF +:+
      CRLF +:+ v
  end.

Fixpoint parts_bytes (b : string) (first : bool) (ps : list Part) : string :=
  match ps with
  | [] => ""
  | p :: ps => part_bytes b first p +:+ parts_bytes b false ps
  end.

Definition Bytes (w : Writer) : string :=
  parts_bytes (Boundary w) true (parts w) +:+
  (if closed w then CRLF +:+ "--" +:+ Boundary w +:+ "--" +:+ CRLF else "").

(** [multipart.Form], what [ParseMultipartForm] stores in a request. *)
Record Form := mkForm
  { Value : Values; File : gmap string (list (string * string)) }.
End multipart.

Module io_ReadCloser.
(** What a request body can be in this package: the stream installed in
    the request.  How far it has been read is [http.BodyOffset]. *)
Inductive t :=
| NoBody                                    (* http.NoBody *)
| NopCloserNil                              (* ioutil.NopCloser(nil) *)
| NopCloserStream (r : io.Stream)            (* ioutil.NopCloser(reader) *)
| BufferString (s : string)                 (* bytes.NewBufferString(s) *)
| MultipartBuffer (w : multipart.Writer).   (* the writer's bytes.Buffer *)
End io_ReadCloser.

Module url.
Record URL := mkURL
  { Scheme : string; Opaque : string; Host : string; Path : string;
    RawQuery : string; Fragment : string; ForceQuery : bool }.

Definition set_Opaque (q : string) (u : URL) : URL :=
  {| Scheme := Scheme u; Opaque := q; Host := Host u; Path := Path u;
     RawQuery := RawQuery u; Fragment := Fragment u;
     ForceQuery := ForceQuery u |}.
End url.

Module http.
Record Request := mkRequest
  { Method : string;
    URL : url.URL;
    Header : Values;
    Body : option io_ReadCloser.t;
    ContentLength : Z;
    Host : string;
    Form : Values;
    PostForm : Values;
    MultipartForm : option multipart.Form;
    (* the state of the stream behind [Body]: the bytes read from it *)
    BodyOffset : nat }.

Definition set_URL (u : url.URL) (r : Request) : Request :=
  {| Method := Method r; URL := u; Header := Header r; Body := Body r;
     ContentLength := ContentLength r; Host := Host r; Form := Form r;
     PostForm := PostForm r; MultipartForm := MultipartForm r;
     BodyOffset := BodyOffset r |}.

Definition set_Header (h : Values) (r : Request) : Request :=
  {| Method := Method r; URL := URL r; Header := h; Body := Body r;
     ContentLength := ContentLength r; Host := Host r; Form := Form r;
     PostForm := PostForm r; MultipartForm := MultipartForm r;
     BodyOffset := BodyOffset r |}.

(** [r.Body = b], a stream of which nothing has been read. *)
Definition set_Body (b : option io_ReadCloser.t) (r : Request) : Request :=
  {| Method := Method r; URL := URL r; Header := Header r; Body := b;
     ContentLength := ContentLength r; Host := Host r; Form := Form r;
     PostForm := PostForm r; MultipartForm := MultipartForm r;
     BodyOffset := 0 |}.

(** [n] more bytes of the body have been read. *)
Definition read_Body (n : nat) (r : Request) : Request :=
  {| Method := Method r; URL := URL r; Header := Header r; Body := Body r;
     ContentLength := ContentLength r; Host := Host r; Form := Form r;
     PostForm := PostForm r; MultipartForm := MultipartForm r;
     BodyOffset := (BodyOffset r + n)%nat |}.

(** The three fields [ParseForm] and [ParseMultipartForm] assign. *)
Record Forms := mkForms
  { forms_Form : Values; forms_PostForm : Values;
    forms_MultipartForm : option multipart.Form }.

Definition set_Forms (f : Forms) (r : Request) : Request :=
  {| Method := Method r; URL := URL r; Header := Header r; Body := Body r;
     ContentLength := ContentLength r; Host := Host r;
     Form := forms_Form f; PostForm := forms_PostForm f;
     MultipartForm := forms_MultipartForm f;
     BodyOffset := BodyOffset r |}.

(** [h.Set(key, value)], for keys already in canonical form (the package
    only uses User-Agent, Content-Type and Authorization). *)
Definition Header_Set (key value : string) (h : Values) : Values :=
  <[key := [value]]> h.

Record Response := mkResponse
  { Status : string; StatusCode : Z; RespHeader : Values;
    RespBody : io.Stream }.

(** What [Client.Do] hands back: a response, or an error (with which a
    response may still come, to be ignored). *)
Inductive DoResult :=
| DoOk (r : Response)
| DoErr (r : option Response) (e : error).
End http.

Module oauth.
Record Credentials := mkCredentials { Token : string; Secret : string }.
Record Client := mkClient { Credentials_ : Credentials }.
End oauth.

Module os.
(** An open file is the stream of its contents. *)
Definition File := io.Stream.
End os.

(** ** Effects *)

Inductive eff : Type -> Type :=
| OAuthAuthorizationHeader (client : oauth.Client)
    (credentials : option oauth.Credentials) (method : string)
    (u : url.URL) (form : Values) : eff (string + error)
| HttpClientDo (req : http.Request) : eff http.DoResult
| OsOpen (name : string) : eff (os.File + error)
| RandomBoundary : eff string
| MapRange (m : Values)
    : eff { l : list (string * list string) | l ≡ₚ map_to_list m }
| BodyClose (r : http.Response) : eff unit.

Inductive go (A : Type) : Type :=
| Ret (a : A)
| Panic (p : panic)
| Call {X : Type} (e : eff X) (k : X -> go A).
Arguments Ret {A} a.
Arguments Panic {A} p.
Arguments Call {A X} e k.

Fixpoint bind {A B : Type} (m : go A) (f : A -> go B) : go B :=
  match m with
  | Ret a => f a
  | Panic p => Panic p
  | Call e k => Call e (fun x => bind (k x) f)
  end.

Notation "'let*' p ':=' m 'in' k" := (bind m (fun p => k))
  (at level 10, p pattern, m at level 100, k at level 200).

Definition call {X : Type} (e : eff X) : go X := Call e Ret.

(** ** Running a program in a world *)

(** A world answers every call. *)
Definition World := forall X : Type, eff X -> X.

Inductive event :=
| Event (X : Type) (e : eff X) (x : X).
Arguments Event {X} e x.

Inductive outcome (A : Type) :=
| Returned (a : A)
| Panicked (p : panic).
Arguments Returned {A} a.
Arguments Panicked {A} p.

Fixpoint run {A : Type} (w : World) (m : go A) : outcome A * list event :=
  match m with
  | Ret a => (Returned a, [])
  | Panic p => (Panicked p, [])
  | Call e k =>
      let x := w _ e in
      let '(o, t) := run w (k x) in (o, Event e x :: t)
  end.

Definition result {A : Type} (w : World) (m : go A) : outcome A :=
  fst (run w m).
Definition trace {A : Type} (w : World) (m : go A) : list event :=
  snd (run w m).

(** ** The library functions the package calls *)

(** [net/url], [net/http], [strconv] and [path/filepath] functions that the
    package calls and that compute from their arguments alone.

    [url_Parse] is the URL that [http.NewRequest] makes of a string:
    [url.Parse], and the host without an empty port.

    [Request.ParseMultipartForm] assigns three fields of the request and may
    read its body: [http_ParseMultipartForm] yields the values it leaves in
    the three fields with its error, [http_ParseMultipartForm_read] the
    number of bytes it reads from the body. *)
Class GoLib := {
  url_Parse : string -> url.URL + error;
  url_ParseQuery : string -> Values * option error;
  Values_Encode : Values -> string;
  url_EscapedPath : url.URL -> string;
  http_ParseMultipartForm : http.Request -> Z -> http.Forms * option error;
  http_ParseMultipartForm_read : http.Request -> Z -> nat;
  strconv_Quote : string -> string;
  filepath_Base : string -> string
}.

(** The [apiHost] flag, set once at start-up. *)
Class Flags := { apiHost : string }.

#[global] Instance default_flags : Flags := {| apiHost := "api.context.io" |}.

(** [URL.RequestURI]: what is sent as the request target. *)
Definition url_RequestURI `{GoLib} (u : url.URL) : string :=
  let result :=
    if decide (url.Opaque u = "") then
      let result := url_EscapedPath u in
      if decide (result = "") then "/" else result
    else if String.prefix "//" (url.Opaque u)
         then url.Scheme u +:+ ":" +:+ url.Opaque u
         else url.Opaque u in
  if url.ForceQuery u || negb (bool_decide (url.RawQuery u = ""))
  then result +:+ "?" +:+ url.RawQuery u
  else result.

(** The bytes of an HTTP token: letters, digits and some signs. *)
Definition is_token_byte (a : ascii) : bool :=
  let n := nat_of_ascii a in
  ((48 <=? n) && (n <=? 57) || (65 <=? n) && (n <=? 90) ||
   (97 <=? n) && (n <=? 122) ||
   bool_decide
     (a ∈ ["!"; "#"; "$"; "%"; "&"; "'"; "*"; "+"; "-"; "."; "^"; "_";
           "`"; "|"; "~"]%char))%nat.

(** [validMethod]: a non-empty token. *)
Definition http_validMethod (method : string) : bool :=
  negb (bool_decide (method = ""))
  && forallb is_token_byte (list_ascii_of_string method).

(** The method of a request made for [method]: GET for the empty one. *)
Definition http_method (method : string) : string :=
  if decide (method = "") then "GET" else method.

(** [http.NewRequest]: checks the method, parses the URL and fills in a
    request; a buffer that holds nothing becomes [http.NoBody]. *)
Definition http_NewRequest `{GoLib} (method urlStr : string)
    (body : option io_ReadCloser.t) : http.Request + error :=
  let method := http_method method in
  if negb (http_validMethod method)
  then inr ("net/http: invalid method " +:+ strconv_Quote method)
  else
    match url_Parse urlStr with
    | inr err => inr err
    | inl u =>
        inl {| http.Method := method;
               http.URL := u;
               http.Header := ∅;
               http.Body :=
                 match body with
                 | Some (io_ReadCloser.BufferString "") =>
                     Some io_ReadCloser.NoBody
                 | _ => body
                 end;
               http.ContentLength :=
                 match body with
                 | Some (io_ReadCloser.BufferString s) =>
                     Z.of_nat (String.length s)
                 | _ => 0
                 end;
               http.Host := url.Host u;
               http.Form := ∅;
               http.PostForm := ∅;
               http.MultipartForm := None;
               http.BodyOffset := 0 |}
    end.

(** [http.DefaultClient.Do] *)
Definition http_DefaultClient_Do (req : http.Request)
    : go (option http.Response * option error) :=
  let* r := call (HttpClientDo req) in
  match r with
  | http.DoOk resp => Ret (Some resp, None)
  | http.DoErr resp err => Ret (resp, Some err)
  end.

(** [ioutil.ReadAll]: the bytes read, and the error that stopped the
    reading if it was not EOF. *)
Definition ioutil_ReadAll (r : io.Stream) : string * option error :=
  (io.data r, io.fail r).

(** [oauth.Client.SetAuthorizationHeader]: computes the header value (with a
    fresh nonce and the current time) and stores it in [header]. *)
Definition SetAuthorizationHeader (c : oauth.Client) (header : Values)
    (credentials : option oauth.Credentials) (method : string)
    (u : url.URL) (form : Values) : go (Values * option error) :=
  let* r := call (OAuthAuthorizationHeader c credentials method u form) in
  match r with
  | inr err => Ret (header, Some err)
  | inl v => Ret (http.Header_Set "Authorization" v header, None)
  end.

(** ** The package *)

(** The struct and its constructor are the same in the three versions. *)
Record ContextIO := mkContextIO
  { key : string; secret : string; client : oauth.Client }.

Definition NewContextIO (key secret : string) : ContextIO :=
  let c := {| oauth.Credentials_ :=
                {| oauth.Token := key; oauth.Secret := secret |} |} in
  {| key := key; secret := secret; client := c |}.

(** *** src/unnamed/part_000: the request is a struct literal *)
Module part_000.

Definition Do `{GoLib} `{Flags} (c : ContextIO) (method q : string)
    (params : Values) (body : option io.Stream)
    : go (option http.Response * option error) :=
  let req :=
    {| http.Method := method;
       http.Host := apiHost;
       http.URL :=
         {| url.Host := apiHost;
            url.Scheme := "https";
            url.Opaque := q;
            url.RawQuery := Values_Encode params;
            url.Path := "";
            url.Fragment := "";
            url.ForceQuery := false |};
       http.Header := {[ "User-Agent" := ["GoContextIO Simple Library"] ]};
       http.Body :=
         Some (match body with
               | None => io_ReadCloser.NopCloserNil
               | Some r => io_ReadCloser.NopCloserStream r
               end);
       http.ContentLength := 0;
       http.Form := ∅;
       http.PostForm := ∅;
       http.MultipartForm := None;
       http.BodyOffset := 0 |} in
  let* (header, err) :=
    SetAuthorizationHeader (client c) (http.Header req) None
      (http.Method req) (http.URL req) ∅ in
  let req := http.set_Header header req in
  match err with
  | Some err => Ret (None, Some err)
  | None => http_DefaultClient_Do req
  end.

Definition DoJSON `{GoLib} `{Flags} (c : ContextIO) (method q : string)
    (params : Values) (body : option io.Stream)
    : go (option string * option error) :=
  let* (response, err) := Do c method q params body in
  match err with
  | Some err => Ret (None, Some err)
  | None =>
      match response with
      | None => Panic NilPointerDereference
      | Some response =>
          let '(json, err) := ioutil_ReadAll (http.RespBody response) in
          let* _ := call (BodyClose response) in
          Ret (Some json, err)
      end
  end.

End part_000.

(** *** src/contextIO.go: the request comes from [http.NewRequest] *)
Module contextIO_go.

Definition Do `{GoLib} `{Flags} (c : ContextIO) (method q : string)
    (params : Values) (body : option string)
    : go (option http.Response * option error) :=
  (* make sure q has a slash in front of it *)
  match slice01 q with
  | None => Panic SliceBoundsOutOfRange
  | Some q01 =>
  let q := if decide (q01 ≠ "/") then "/" +:+ q else q in
  match body with
  | None => Panic NilPointerDereference
  | Some body =>
  match http_NewRequest method ("https://" +:+ apiHost +:+ q)
          (Some (io_ReadCloser.BufferString body)) with
  | inr _ => Panic NilPointerDereference
  | inl req =>
  let req := http.set_URL (url.set_Opaque q (http.URL req)) req in
  let req :=
    http.set_Header
      (http.Header_Set "User-Agent" "GoContextIO Simple Library v. 0.1"
         (http.Header req)) req in
  let authorize_and_send (req : http.Request) (v : Values) :=
    let* (header, err) :=
      SetAuthorizationHeader (client c) (http.Header req) None
        (http.Method req) (http.URL req) v in
    let req := http.set_Header header req in
    match err with
    | Some err => Ret (None, Some err)
    | None => http_DefaultClient_Do req
    end in
  if bool_decide (method ∈ ["PUT"; "POST"; "DELETE"]) then
    let req :=
      http.set_Header
        (http.Header_Set "Content-Type" "application/x-www-form-urlencoded"
           (http.Header req)) req in
    let '(v, err) := url_ParseQuery body in
    match err with
    | Some err => Ret (None, Some err)
    | None => authorize_and_send req v
    end
  else authorize_and_send req ∅
  end end end.

Definition DoJSON `{GoLib} `{Flags} (c : ContextIO) (method q : string)
    (params : Values) (body : option string)
    : go (option string * option error) :=
  let* (response, err) := Do c method q params body in
  match err with
  | Some err => Ret (None, Some err)
  | None =>
      match response with
      | None => Panic NilPointerDereference
      | Some response =>
          let '(json, err) := ioutil_ReadAll (http.RespBody response) in
          let* _ := call (BodyClose response) in
          Ret (Some json, err)
      end
  end.

End contextIO_go.

(** *** src/unnamed/part_001: the [Request] wrapper and file attachment *)
Module part_001.

Definition defaultMaxMemory : Z := Z.shiftl 32 21.

Record Request := mkRequest
  { Request_ : http.Request;
    C : ContextIO;
    Query : string;
    Attachment : string }.

Definition set_Request (r : http.Request) (req : Request) : Request :=
  {| Request_ := r; C := C req; Query := Query req;
     Attachment := Attachment req |}.

Definition SetUserAgent (r : Request) (ua : string) : Request :=
  set_Request
    (http.set_Header
       (http.Header_Set "User-Agent" ua (http.Header (Request_ r)))
       (Request_ r)) r.

Definition Sign (r : Request) : go (Request * option error) :=
  let* (header, err) :=
    SetAuthorizationHeader (client (C r)) (http.Header (Request_ r)) None
      (http.Method (Request_ r)) (http.URL (Request_ r))
      (http.PostForm (Request_ r)) in
  Ret (set_Request (http.set_Header header (Request_ r)) r, err).

Definition NewRequest `{GoLib} `{Flags} (c : ContextIO) (method q : string)
    (queryParams postParams : Values)
    : go (option Request * option error) :=
  (* make sure q has a slash in front of it *)
  match slice01 q with
  | None => Panic SliceBoundsOutOfRange
  | Some q01 =>
  let q := if decide (q01 ≠ "/") then "/" +:+ q else q in
  let query := apiHost +:+ q in
  let query :=
    if decide (0 < len queryParams)
    then query +:+ "?" +:+ Values_Encode queryParams
    else query in
  match http_NewRequest method ("https://" +:+ query) None with
  | inr err => Ret (None, Some err)
  | inl r =>
  let req := {| Request_ := r; C := c; Query := q; Attachment := "" |} in
  let req :=
    set_Request
      (http.set_URL (url.set_Opaque q (http.URL (Request_ req)))
         (Request_ req)) req in
  let req := SetUserAgent req "GoContextIO Simple Library v. 0.1" in
  let* (req, err) := Sign req in
  Ret (Some req, err)
  end end.

(** The two loops of [AttachFile] over the form and over the values of a
    key; they stop at the first error. *)
Fixpoint AttachFile_vals (writer : multipart.Writer) (key : string)
    (valSlice : list string) : multipart.Writer * option error :=
  match valSlice with
  | [] => (writer, None)
  | val :: valSlice =>
      let '(writer, err) := multipart.WriteField writer key val in
      match err with
      | Some err => (writer, Some err)
      | None => AttachFile_vals writer key valSlice
      end
  end.

Fixpoint AttachFile_form (writer : multipart.Writer)
    (form : list (string * list string))
    : multipart.Writer * option error :=
  match form with
  | [] => (writer, None)
  | (key, valSlice) :: form =>
      let '(writer, err) := AttachFile_vals writer key valSlice in
      match err with
      | Some err => (writer, Some err)
      | None => AttachFile_form writer form
      end
  end.

(** The request is changed in place: the result carries its new state. *)
Definition AttachFile `{GoLib} (c : ContextIO) (req : http.Request)
    (fieldName fileName : string) : go (http.Request * option error) :=
  let* f := call (OsOpen fileName) in
  match f with
  | inr err => Ret (req, Some err)
  | inl f =>
  let* boundary := call RandomBoundary in
  let writer := multipart.NewWriter boundary in
  let '(writer, err) :=
    multipart.CreateFormFile writer fieldName (filepath_Base fileName) in
  match err with
  | Some err => Ret (req, Some err)
  | None =>
  let '(writer, _) := multipart.Copy writer f in
  (* transfer the existing post vals into the new body *)
  let* form := call (MapRange (http.PostForm req)) in
  let '(writer, err) := AttachFile_form writer (proj1_sig form) in
  match err with
  | Some err => Ret (req, Some err)
  | None =>
  let '(writer, err) := multipart.Close writer in
  match err with
  | Some err => Ret (req, Some err)
  | None =>
  let req :=
    http.set_Body (Some (io_ReadCloser.MultipartBuffer writer)) req in
  (* update the form *)
  let req :=
    http.read_Body (http_ParseMultipartForm_read req defaultMaxMemory)
      (http.set_Forms (fst (http_ParseMultipartForm req defaultMaxMemory))
         req) in
  let req :=
    http.set_Header
      (http.Header_Set "Content-Type"
         (multipart.FormDataContentType writer) (http.Header req)) req in
  Ret (req, None)
  end end end end.

Definition Do `{GoLib} `{Flags} (c : ContextIO) (method q : string)
    (queryParams postParams : Values)
    : go (option http.Response * option error) :=
  let* (req, err) := NewRequest c method q queryParams postParams in
  match err with
  | Some err => Ret (None, Some err)
  | None =>
      match req with
      | None => Panic NilPointerDereference
      | Some req => http_DefaultClient_Do (Request_ req)
      end
  end.

Definition DoJSON `{GoLib} `{Flags} (c : ContextIO) (method q : string)
    (queryParams postParams : Values) (body : option string)
    : go (option string * option error) :=
  let* (response, err) := Do c method q queryParams postParams in
  match err with
  | Some err => Ret (None, Some err)
  | None =>
      match response with
      | None => Panic NilPointerDereference
      | Some response =>
          let '(json, err) := ioutil_ReadAll (http.RespBody response) in
          let* _ := call (BodyClose response) in
          Ret (Some json, err)
      end
  end.

End part_001.

(** ** A reference library and world

    Executable models of the library functions, after the Go sources of
    today, used to run the package on concrete inputs.  They cover the
    inputs this package gives them: text without control or non-ASCII bytes
    for [Quote], absolute URLs whose host is a plain name for [Parse],
    Content-Type values of the usual shape and forms within the limits of
    the reader for [ParseMultipartForm].  A nil map being the empty one, an
    empty form of a request counts as nil. *)
Module ref.

Definition is_unreserved (a : ascii) : bool :=
  let n := nat_of_ascii a in
  ((48 <=? n) && (n <=? 57) || (65 <=? n) && (n <=? 90) ||
   (97 <=? n) && (n <=? 122) ||
   bool_decide (a ∈ ["-"; "_"; "."; "~"]%char))%nat.

Definition unhex (a : ascii) : option nat :=
  let n := nat_of_ascii a in
  (if (48 <=? n) && (n <=? 57) then Some (n - 48)
   else if (97 <=? n) && (n <=? 102) then Some (n - 97 + 10)
   else if (65 <=? n) && (n <=? 70) then Some (n - 65 + 10)
   else None)%nat.

Definition hexdigit (n : nat) : ascii :=
  default "0"%char (list_ascii_of_string "0123456789ABCDEF" !! n).

Definition percent (a : ascii) : string :=
  let n := nat_of_ascii a in
  String "%" (String (hexdigit (n / 16)) (String (hexdigit (n mod 16)) ""))%nat.

(** [strconv.Quote]: between quotes, a backslash before every quote and
    backslash. *)
Fixpoint quote_body (s : string) : string :=
  match s with
  | "" => ""
  | String c rest =>
      (if bool_decide (c = "034"%char) || bool_decide (c = "092"%char)
       then String "092" (String c "") else String c "")
      +:+ quote_body rest
  end.

Definition Quote (s : string) : string :=
  String "034" (quote_body s) +:+ String "034" "".

(** [EscapeError]: the percent sign and up to two bytes after it. *)
Definition EscapeError (s : string) : error :=
  "invalid URL escape " +:+ Quote (String.substring 0 3 s).

(** [unescape]: [plus] is true in a query component, where a plus sign
    stands for a space. *)
Fixpoint unescape (plus : bool) (s : string) : string + error :=
  match s with
  | "" => inl ""
  | String "%" (String a (String b rest)) =>
      match unhex a, unhex b with
      | Some x, Some y =>
          match unescape plus rest with
          | inl r => inl (String (ascii_of_nat (x * 16 + y)) r)
          | inr e => inr e
          end
      | _, _ => inr (EscapeError s)
      end
  | String "%" _ => inr (EscapeError s)
  | String c rest =>
      match unescape plus rest with
      | inl r =>
          inl (String (if plus && bool_decide (c = "+"%char)
                       then " "%char else c) r)
      | inr e => inr e
      end
  end.

Definition QueryUnescape := unescape true.

Fixpoint QueryEscape (s : string) : string :=
  match s with
  | "" => ""
  | String c rest =>
      (if is_unreserved c then String c ""
       else if bool_decide (c = " "%char) then "+"
       else percent c) +:+ QueryEscape rest
  end.

(** Splits at every byte satisfying [sep]. *)
Fixpoint split_at (sep : ascii -> bool) (s : string) : list string :=
  match s with
  | "" => [""]
  | String c rest =>
      if sep c then "" :: split_at sep rest
      else match split_at sep rest with
           | x :: xs => String c x :: xs
           | [] => [String c ""]
           end
  end.

(** [strings.Cut]: around the first [sep]. *)
Fixpoint cut (sep : ascii) (s : string) : string * option string :=
  match s with
  | "" => ("", None)
  | String c rest =>
      if bool_decide (c = sep) then ("", Some rest)
      else let '(a, b) := cut sep rest in (String c a, b)
  end.

Definition contains (c : ascii) (s : string) : bool :=
  bool_decide (c ∈ list_ascii_of_string s).

Definition first_error (err err1 : option error) : option error :=
  match err with Some _ => err | None => err1 end.

Definition parseQuery_step (acc : Values * option error) (key : string)
    : Values * option error :=
  let '(m, err) := acc in
  if contains ";" key
  then (m, Some "invalid semicolon separator in query")
  else if decide (key = "") then acc
  else
    let '(key, value) := cut "=" key in
    match QueryUnescape key with
    | inr e => (m, first_error err (Some e))
    | inl key =>
        match QueryUnescape (default "" value) with
        | inr e => (m, first_error err (Some e))
        | inl value =>
            (<[key := (default [] (m !! key) ++ [value])%list]> m, err)
        end
    end.

Definition ParseQuery (query : string) : Values * option error :=
  foldl parseQuery_step (∅, None)
    (split_at (fun c => bool_decide (c = "&"%char)) query).

Definition key_le (x y : string * list string) : Prop :=
  Is_true (String.leb (fst x) (fst y)).

Definition Encode (v : Values) : string :=
  String.concat "&"
    (flat_map (fun '(k, vs) =>
                 map (fun val => QueryEscape k +:+ "=" +:+ QueryEscape val) vs)
       (merge_sort key_le (map_to_list v))).

Definition is_path_byte (a : ascii) : bool :=
  is_unreserved a ||
  bool_decide (a ∈ ["$"; "&"; "+"; ","; "/"; ":"; ";"; "="; "@"]%char).

Fixpoint escape_path (s : string) : string :=
  match s with
  | "" => ""
  | String c rest =>
      (if is_path_byte c then String c "" else percent c) +:+
      escape_path rest
  end.

Definition EscapedPath (u : url.URL) : string := escape_path (url.Path u).

Definition is_control (a : ascii) : bool :=
  let n := nat_of_ascii a in ((n <? 32) || (n =? 127))%nat.

Definition lower (a : ascii) : ascii :=
  let n := nat_of_ascii a in
  (if (65 <=? n) && (n <=? 90) then ascii_of_nat (n + 32) else a)%nat.

Definition to_lower (s : string) : string :=
  string_of_list_ascii (map lower (list_ascii_of_string s)).

(** [removeEmptyPort]: a host that ends with a colon loses it. *)
Definition removeEmptyPort (host : string) : string :=
  match reverse (list_ascii_of_string host) with
  | ":"%char :: rest => string_of_list_ascii (reverse rest)
  | _ => host
  end.

(** [url.Parse] on a string that begins with a scheme and a colon, then the
    removal of an empty port. *)
Definition Parse (rawurl : string) : url.URL + error :=
  let '(u, frag) := cut "#" rawurl in
  let failed (err : error) : url.URL + error :=
    inr ("parse " +:+ Quote u +:+ ": " +:+ err) in
  if existsb is_control (list_ascii_of_string u)
  then failed "net/url: invalid control character in URL"
  else
  let '(scheme, rest) := cut ":" u in
  match rest with
  | None => failed "missing protocol scheme"
  | Some rest =>
      if decide (scheme = "") then failed "missing protocol scheme"
      else
      let force :=
        bool_decide (count_occ ascii_dec (list_ascii_of_string rest) "?"%char
                     = 1%nat)
        && bool_decide (last (list_ascii_of_string rest) = Some "?"%char) in
      let '(rest, query) := cut "?" rest in
      if negb (String.prefix "/" rest) then
        inl {| url.Scheme := to_lower scheme; url.Opaque := rest;
               url.Host := ""; url.Path := "";
               url.RawQuery := default "" query;
               url.Fragment := default "" frag; url.ForceQuery := force |}
      else
        let '(host, rest) :=
          if String.prefix "//" rest then
            let '(authority, p) :=
              cut "/" (String.substring 2 (String.length rest - 2) rest) in
            (authority, match p with Some p => "/" +:+ p | None => "" end)
          else ("", rest) in
        match unescape false rest with
        | inr e => failed e
        | inl path =>
            inl {| url.Scheme := to_lower scheme; url.Opaque := "";
                   url.Host := removeEmptyPort host; url.Path := path;
                   url.RawQuery := default "" query;
                   url.Fragment := default "" frag;
                   url.ForceQuery := force |}
        end
  end.

(** [filepath.Base] with slash as the separator. *)
Fixpoint strip_trailing_slashes (rev_path : list ascii) : list ascii :=
  match rev_path with
  | "/"%char :: rest => strip_trailing_slashes rest
  | _ => rev_path
  end.

Fixpoint last_element (rev_path : list ascii) : list ascii :=
  match rev_path with
  | [] => []
  | c :: rest =>
      if bool_decide (c = "/"%char) then [] else c :: last_element rest
  end.

Definition Base (path : string) : string :=
  if decide (path = "") then "."
  else
    let stripped :=
      strip_trailing_slashes (reverse (list_ascii_of_string path)) in
    let last :=
      reverse (last_element stripped) in
    if decide (last = []) then "/" else string_of_list_ascii last.

(** The media type of a Content-Type value: the text before the first
    semicolon, without the spaces around it, in lower case. *)
Fixpoint trim_left (s : string) : string :=
  match s with
  | String " " rest => trim_left rest
  | _ => s
  end.

Definition trim (s : string) : string :=
  string_of_list_ascii
    (reverse (list_ascii_of_string
       (trim_left (string_of_list_ascii
          (reverse (list_ascii_of_string (trim_left s))))))).

Definition media_type (ct : string) : string :=
  to_lower (trim (fst (cut ";" ct))).

(** The boundary parameter of a Content-Type value, written without
    quotes. *)
Definition boundary_param (ct : string) : option string :=
  let params :=
    match split_at (fun c => bool_decide (c = ";"%char)) ct with
    | _ :: params => params
    | [] => []
    end in
  list_find (fun kv => to_lower (trim (fst kv)) = "boundary")
    (map (cut "=") params)
  ≫= fun '(_, kv) => snd kv.

Definition Header_Get (key : string) (h : Values) : string :=
  match h !! key with
  | Some (v :: _) => v
  | _ => ""
  end.

(** The bytes behind the body of a request that have not been read. *)
Definition unread (r : http.Request) : string :=
  let bytes :=
    match http.Body r with
    | Some (io_ReadCloser.MultipartBuffer w) => multipart.Bytes w
    | Some (io_ReadCloser.BufferString s) => s
    | Some (io_ReadCloser.NopCloserStream st) => io.data st
    | _ => ""
    end in
  String.substring (http.BodyOffset r)
    (String.length bytes - http.BodyOffset r) bytes.

(** The name of a part as a reader gets it back: the backslashes of
    [escapeQuotes] undone, its percent codes for CR and LF left. *)
Fixpoint reread_name (s : string) : string :=
  match s with
  | "" => ""
  | String c rest =>
      (if bool_decide (c = "013"%char) then "%0D"
       else if bool_decide (c = "010"%char) then "%0A"
       else String c "") +:+ reread_name rest
  end.

Definition add_value {A : Type} (m : gmap string (list A)) (k : string)
    (v : A) : gmap string (list A) :=
  <[k := (default [] (m !! k) ++ [v])%list]> m.

(** [Reader.ReadForm] on a document read from its start: the values and
    the files by name, parts without a name left out. *)
Definition ReadForm (w : multipart.Writer) : multipart.Form :=
  foldl (fun f p =>
           match p with
           | multipart.FormField k v =>
               if decide (k = "") then f
               else {| multipart.Value :=
                         add_value (multipart.Value f) (reread_name k) v;
                       multipart.File := multipart.File f |}
           | multipart.FormFile k n c =>
               if decide (k = "") then f
               else {| multipart.Value := multipart.Value f;
                       multipart.File :=
                         add_value (multipart.File f) (reread_name k)
                           (Base (reread_name n), c) |}
           end)
    {| multipart.Value := ∅; multipart.File := ∅ |} (multipart.parts w).

Definition copyValues (dst src : Values) : Values :=
  union_with (fun a b => Some (a ++ b)%list) dst src.

(** [Request.ParseForm] and [Request.ParseMultipartForm]: the three fields,
    the error and the number of bytes read from the body. *)
Definition ParseForm (r : http.Request)
    : Values * Values * option error * nat :=
  if decide (http.Form r = ∅) then
    let '(post, err, n) :=
      if decide (http.PostForm r = ∅) then
        if bool_decide (http.Method r ∈ ["POST"; "PUT"; "PATCH"]) then
          match http.Body r with
          | None => (∅, Some "missing form body", 0%nat)
          | Some _ =>
              if decide (media_type (Header_Get "Content-Type" (http.Header r))
                         = "application/x-www-form-urlencoded")
              then let '(vs, e) := ParseQuery (unread r) in
                   (vs, e, String.length (unread r))
              else (∅, None, 0%nat)
          end
        else (∅, None, 0%nat)
      else (http.PostForm r, None, 0%nat) in
    let '(query, e) := ParseQuery (url.RawQuery (http.URL r)) in
    (copyValues post query, post, first_error err e, n)
  else (http.Form r, http.PostForm r, None, 0%nat).

Definition parse_multipart (r : http.Request)
    : http.Forms * option error * nat :=
  let '(form, post, err, n) := ParseForm r in
  let forms :=
    {| http.forms_Form := form; http.forms_PostForm := post;
       http.forms_MultipartForm := http.MultipartForm r |} in
  match http.MultipartForm r with
  | Some _ => (forms, None, n)
  | None =>
      let ct := Header_Get "Content-Type" (http.Header r) in
      if decide (ct = "")
      then (forms, Some "request Content-Type isn't multipart/form-data", n)
      else
      match http.Body r with
      | None => (forms, Some "missing form body", n)
      | Some body =>
          if decide (media_type ct ≠ "multipart/form-data")
          then (forms,
                Some "request Content-Type isn't multipart/form-data", n)
          else
          match boundary_param ct with
          | None =>
              (forms, Some "no multipart boundary param in Content-Type", n)
          | Some boundary =>
              let all := (n + String.length
                                (unread (http.read_Body n r)))%nat in
              match body with
              | io_ReadCloser.MultipartBuffer w =>
                  if decide (multipart.Boundary w = boundary
                             ∧ multipart.closed w = true
                             ∧ (http.BodyOffset r + n = 0)%nat)
                  then
                    let f := ReadForm w in
                    ({| http.forms_Form :=
                          copyValues form (multipart.Value f);
                        http.forms_PostForm :=
                          copyValues post (multipart.Value f);
                        http.forms_MultipartForm := Some f |}, err, all)
                  else (forms, Some "multipart: NextPart: EOF", all)
              | _ => (forms, Some "multipart: NextPart: EOF", all)
              end
          end
      end
  end.

Definition ParseMultipartForm (r : http.Request) (maxMemory : Z)
    : http.Forms * option error :=
  fst (parse_multipart r).

Definition ParseMultipartForm_read (r : http.Request) (maxMemory : Z) : nat :=
  snd (parse_multipart r).

#[global] Instance lib : GoLib :=
  {| url_Parse := Parse;
     url_ParseQuery := ParseQuery;
     Values_Encode := Encode;
     url_EscapedPath := EscapedPath;
     http_ParseMultipartForm := ParseMultipartForm;
     http_ParseMultipartForm_read := ParseMultipartForm_read;
     strconv_Quote := Quote;
     filepath_Base := Base |}.

(** The base string of the signature stands for the signature itself, and
    the nonce and the timestamp are fixed. *)
Definition AuthorizationHeader (c : oauth.Client) (method : string)
    (u : url.URL) (form : Values) : string :=
  "OAuth oauth_consumer_key=" +:+ oauth.Token (oauth.Credentials_ c) +:+
  ", oauth_signature=" +:+
  QueryEscape
    (method +:+ "&" +:+ url.Scheme u +:+ "://" +:+ url.Host u +:+
     url_RequestURI
       {| url.Scheme := url.Scheme u; url.Opaque := url.Opaque u;
          url.Host := url.Host u; url.Path := url.Path u;
          url.RawQuery := ""; url.Fragment := "";
          url.ForceQuery := false |} +:+
     "&" +:+
     Encode (union_with (fun a b => Some (a ++ b)%list) form
               (fst (ParseQuery (url.RawQuery u))))).

Definition response : http.Response :=
  {| http.Status := "200 OK"; http.StatusCode := 200;
     http.RespHeader := {[ "Content-Type" := ["application/json"] ]};
     http.RespBody := {| io.data := "[]"; io.fail := None |} |}.

(** One file exists; the network answers every request with [response]. *)
Definition world : World := fun X e =>
  match e in eff X return X with
  | OAuthAuthorizationHeader c _ method u form =>
      inl (AuthorizationHeader c method u form)
  | HttpClientDo _ => http.DoOk response
  | OsOpen name =>
      if decide (name = "/tmp/photo.png")
      then inl {| io.data := "PNG"; io.fail := None |}
      else inr "open: no such file or directory"
  | RandomBoundary => "4f6d1c"
  | MapRange m => exist _ (map_to_list m) (Permutation_refl _)
  | BodyClose _ => tt
  end.

End ref.

(** ** Observing a run *)

(** The requests handed to the HTTP client. *)
Definition dispatched (t : list event) : list http.Request :=
  flat_map (fun ev =>
              match ev with
              | Event e _ =>
                  match e with HttpClientDo req => [req] | _ => [] end
              end) t.

(** The method, URL and form of every OAuth header computation. *)
Definition signed (t : list event) : list (string * url.URL * Values) :=
  flat_map (fun ev =>
              match ev with
              | Event e _ =>
                  match e with
                  | OAuthAuthorizationHeader _ _ method u form =>
                      [(method, u, form)]
                  | _ => []
                  end
              end) t.

Definition Authorization (r : http.Request) : option (list string) :=
  http.Header r !! "Authorization".

Definition ContentType (r : http.Request) : option (list string) :=
  http.Header r !! "Content-Type".

(** The path with a leading slash, as the comment in the source asks. *)
Definition with_slash (q : string) : string :=
  if String.prefix "/" q then q else "/" +:+ q.

(** The multipart fields that a form amounts to. *)
Definition form_fields (form : list (string * list string))
    : list multipart.Part :=
  flat_map (fun '(k, vs) => map (multipart.FormField k) vs) form.

(** The writer that [AttachFile] has closed when the file is [f], the
    boundary [boundary] and the form is ranged over as [form]. *)
Definition attached_writer `{GoLib} (fieldName fileName : string) (f : os.File)
    (boundary : string) (form : list (string * list string))
    : multipart.Writer :=
  {| multipart.Boundary := boundary;
     multipart.parts :=
       multipart.FormFile fieldName (filepath_Base fileName) (io.data f)
       :: form_fields form;
     multipart.closed := true |}.

(** The query string that part_001 appends to the URL. *)
Definition query_suffix `{GoLib} (queryParams : Values) : string :=
  if decide (0 < len queryParams) then "?" +:+ Values_Encode queryParams
  else "".

(** [ParseMultipartForm] reads nothing of the body of the request, whatever
    that body is: so it is of a request whose Content-Type is neither
    multipart/form-data nor that of a form, as a request of [NewRequest]. *)
Definition leaves_body_unread `{GoLib} (req : http.Request) : Prop :=
  ∀ body, http_ParseMultipartForm_read (http.set_Body body req)
            part_001.defaultMaxMemory = 0%nat.

(** What the spec says of DispatchJSON, on the outcome of the dispatch. *)
Definition DispatchJSON_spec
    (o : outcome (option http.Response * option error))
    : outcome (option string * option error) :=
  match o with
  | Panicked p => Panicked p
  | Returned (_, Some err) => Returned (None, Some err)
  | Returned (Some response, None) =>
      Returned (Some (io.data (http.RespBody response)),
                io.fail (http.RespBody response))
  | Returned (None, None) => Panicked NilPointerDereference
  end.

(** The client and the token credentials of every OAuth header
    computation. *)
Definition oauth_calls (t : list event)
    : list (oauth.Client * option oauth.Credentials) :=
  flat_map (fun ev =>
              match ev with
              | Event e _ =>
                  match e with
                  | OAuthAuthorizationHeader client credentials _ _ _ =>
                      [(client, credentials)]
                  | _ => []
                  end
              end) t.

(** The responses whose body has been closed. *)
Definition closed_bodies (t : list event) : list http.Response :=
  flat_map (fun ev =>
              match ev with
              | Event e _ =>
                  match e with BodyClose r => [r] | _ => [] end
              end) t.

(** ** Properties *)

Lemma run_bind {A B : Type} (w : World) (m : go A) (f : A -> go B) :
  run w (bind m f) =
  match run w m with
  | (Returned a, t) => let '(o, t') := run w (f a) in (o, t ++ t')
  | (Panicked p, t) => (Panicked p, t)
  end.
Proof.
  induction m as [a|p|X e k IH]; simpl.
  - by destruct (run w (f a)).
  - done.
  - rewrite IH. destruct (run w (k (w X e))) as [[a|p] t]; [|done].
    by destruct (run w (f a)).
Qed.

Lemma result_bind {A B : Type} (w : World) (m : go A) (f : A -> go B) :
  result w (bind m f) =
  match result w m with
  | Returned a => result w (f a)
  | Panicked p => Panicked p
  end.
Proof.
  unfold result. rewrite run_bind.
  destruct (run w m) as [[a|p] t]; simpl; [|done].
  by destruct (run w (f a)).
Qed.

Lemma slice01_None (q : string) : slice01 q = None <-> q = "".
Proof. by destruct q. Qed.

(** The test of the source and [with_slash] agree. *)
Lemma slash_test (a : ascii) (p : string) :
  (if decide (String a "" ≠ "/") then "/" +:+ String a p else String a p)
  = with_slash (String a p).
Proof.
  unfold with_slash.
  change (String.prefix "/" (String a p))
    with (if ascii_dec "/" a then String.prefix "" p else false).
  destruct (ascii_dec "/" a) as [E|E].
  - rewrite decide_False; [by destruct p|]. intros Hn. apply Hn. by rewrite E.
  - rewrite decide_True; [done|]. intros [= ->]. by apply E.
Qed.

Lemma with_slash_prefix (q : string) : String.prefix "/" (with_slash q) = true.
Proof.
  unfold with_slash. destruct (String.prefix "/" q) eqn:E; [done|].
  simpl. by destruct q.
Qed.


Section empty_path.
Context `{GoLib} `{Flags}.

(** C10.  On the empty path the slice [q[0:1]] is out of range: [Do] of
    contextIO.go and [NewRequest] of part_001 panic before anything is
    built, and with them [Do] and [DoJSON] which call them.  The slice is
    in range on every other path, so this panic is that of the empty path
    only. *)
Theorem empty_path_out_of_bounds (w : World) (c : ContextIO)
    (method q : string) (params postParams : Values)
    (body : option string) :
  contextIO_go.Do c method "" params body = Panic SliceBoundsOutOfRange
  ∧ contextIO_go.DoJSON c method "" params body
    = Panic SliceBoundsOutOfRange
  ∧ part_001.NewRequest c method "" params postParams
    = Panic SliceBoundsOutOfRange
  ∧ part_001.Do c method "" params postParams
    = Panic SliceBoundsOutOfRange
  ∧ part_001.DoJSON c method "" params postParams body
    = Panic SliceBoundsOutOfRange
  ∧ (result w (contextIO_go.Do c method q params body)
       = Panicked SliceBoundsOutOfRange <-> q = "")
  ∧ (result w (part_001.NewRequest c method q params postParams)
       = Panicked SliceBoundsOutOfRange <-> q = "").
Proof.
  repeat split; try done.
  - destruct q as [|a p]; [done|]. unfold contextIO_go.Do, result.
    simpl slice01. cbv beta iota. destruct body as [b|]; [|done].
    destruct (http_NewRequest _ _ _) as [r|e]; [|done].
    cbv zeta.
    assert (Hs : forall r v,
      (run w (let* (header, err) :=
                SetAuthorizationHeader (client c) (http.Header r) None
                  (http.Method r) (http.URL r) v in
              match err with
              | Some err => Ret (None, Some err)
              | None => http_DefaultClient_Do (http.set_Header header r)
              end)).1 ≠ Panicked SliceBoundsOutOfRange).
    { intros r0 v. simpl.
      destruct (w _ (OAuthAuthorizationHeader _ _ _ _ _)); simpl; [|done].
      by destruct (w _ (HttpClientDo _)). }
    case_bool_decide.
    + destruct (url_ParseQuery b) as [v [e|]]; [done|].
      intros E. by apply Hs in E.
    + intros E. by apply Hs in E.
  - by intros ->.
  - destruct q as [|a p]; [done|]. unfold part_001.NewRequest, result.
    simpl slice01. cbv beta iota zeta.
    destruct (http_NewRequest _ _ _) as [r|e]; [|done].
    simpl. by destruct (w _ (OAuthAuthorizationHeader _ _ _ _ _)).
  - by intros ->.
Qed.
End empty_path.

Lemma with_slash_id (q : string) :
  String.prefix "/" q = true -> with_slash q = q.
Proof. unfold with_slash. by intros ->. Qed.

Lemma with_slash_add (q : string) :
  String.prefix "/" q = false -> with_slash q = "/" +:+ q.
Proof. unfold with_slash. by intros ->. Qed.

Section normalization.
Context `{GoLib} `{Flags}.
Variables (c : ContextIO) (method : string).

Lemma contextIO_go_Do_slash (q : string) params body :
  q ≠ "" ->
  contextIO_go.Do c method q params body
  = contextIO_go.Do c method (with_slash q) params body.
Proof.
  intros Hq. destruct q as [|a p]; [done|].
  pose proof (with_slash_prefix (String a p)) as Hp.
  destruct (with_slash (String a p)) as [|a' p'] eqn:E; [done|].
  unfold contextIO_go.Do. simpl slice01. cbv beta iota.
  rewrite !slash_test, E. by rewrite (with_slash_id _ Hp).
Qed.

Lemma part_001_NewRequest_slash (q : string) queryParams postParams :
  q ≠ "" ->
  part_001.NewRequest c method q queryParams postParams
  = part_001.NewRequest c method (with_slash q) queryParams postParams.
Proof.
  intros Hq. destruct q as [|a p]; [done|].
  pose proof (with_slash_prefix (String a p)) as Hp.
  destruct (with_slash (String a p)) as [|a' p'] eqn:E; [done|].
  unfold part_001.NewRequest. simpl slice01. cbv beta iota.
  rewrite !slash_test, E. by rewrite (with_slash_id _ Hp).
Qed.

(** C2, as amended.  In contextIO.go and in part_001, a non-empty path
    without a leading slash and the same path with one give the same
    program: the same request, signed and dispatched alike, in every
    world. *)
Theorem leading_slash_is_added (p : string) (params postParams : Values)
    (body : option string) :
  p ≠ "" ->
  String.prefix "/" p = false ->
  contextIO_go.Do c method p params body
  = contextIO_go.Do c method ("/" +:+ p) params body
  ∧ contextIO_go.DoJSON c method p params body
    = contextIO_go.DoJSON c method ("/" +:+ p) params body
  ∧ part_001.NewRequest c method p params postParams
    = part_001.NewRequest c method ("/" +:+ p) params postParams
  ∧ part_001.Do c method p params postParams
    = part_001.Do c method ("/" +:+ p) params postParams
  ∧ part_001.DoJSON c method p params postParams body
    = part_001.DoJSON c method ("/" +:+ p) params postParams body.
Proof.
  intros Hp Hs.
  assert (E1 : contextIO_go.Do c method p params body
               = contextIO_go.Do c method ("/" +:+ p) params body).
  { rewrite contextIO_go_Do_slash by done. by rewrite with_slash_add. }
  assert (E2 : part_001.NewRequest c method p params postParams
               = part_001.NewRequest c method ("/" +:+ p) params postParams).
  { rewrite part_001_NewRequest_slash by done. by rewrite with_slash_add. }
  unfold contextIO_go.DoJSON, part_001.DoJSON, part_001.Do.
  by rewrite E1, E2.
Qed.
End normalization.

Lemma leading_slash_is_added_witness :
  "2.0/accounts" ≠ "" ∧ String.prefix "/" "2.0/accounts" = false
  ∧ contextIO_go.Do (NewContextIO "k" "s") "GET" "2.0/accounts" ∅ (Some "")
    = contextIO_go.Do (NewContextIO "k" "s") "GET" "/2.0/accounts" ∅ (Some "").
Proof.
  split; [discriminate|]. split; [reflexivity|].
  apply (leading_slash_is_added (NewContextIO "k" "s") "GET" "2.0/accounts"
           ∅ ∅ (Some "")); [discriminate|reflexivity].
Defined.

(** C2, as stated, fails on part_000: its [Do] stores the path as it is
    given, so the two paths are signed and sent as two different URLs. *)
Lemma part_000_keeps_path_as_given :
  "2.0/accounts" ≠ "" ∧ String.prefix "/" "2.0/accounts" = false
  ∧ part_000.Do (NewContextIO "k" "s") "GET" "2.0/accounts" ∅ None
    ≠ part_000.Do (NewContextIO "k" "s") "GET" "/2.0/accounts" ∅ None
  ∧ ∀ w : World,
      map (fun s => url.Opaque s.1.2)
        (signed (trace w
           (part_000.Do (NewContextIO "k" "s") "GET" "2.0/accounts" ∅ None)))
      = ["2.0/accounts"]
      ∧ map (fun s => url.Opaque s.1.2)
          (signed (trace w
             (part_000.Do (NewContextIO "k" "s") "GET" "/2.0/accounts" ∅
                None)))
        = ["/2.0/accounts"].
Proof.
  split; [discriminate|]. split; [reflexivity|]. split.
  - intros E.
    apply (f_equal (fun m => map (fun s => url.Opaque s.1.2)
                               (signed (trace ref.world m)))) in E.
    vm_compute in E. discriminate.
  - intros w. unfold part_000.Do, trace. simpl.
    split.
    + destruct (w _ (OAuthAuthorizationHeader _ _ _ _ _)); simpl; [|done].
      by destruct (w _ (HttpClientDo _)).
    + destruct (w _ (OAuthAuthorizationHeader _ _ _ _ _)); simpl; [|done].
      by destruct (w _ (HttpClientDo _)).
Qed.

(** PUT, POST and DELETE are valid methods, kept as they are. *)
Lemma mutating_method_valid (method : string) :
  method ∈ ["PUT"; "POST"; "DELETE"] ->
  http_method method = method ∧ http_validMethod method = true.
Proof.
  intros Hm.
  repeat match goal with
         | H : _ ∈ [] |- _ => inversion H
         | H : _ ∈ _ :: _ |- _ => inversion H; clear H; subst
         end; by split.
Qed.

Lemma http_method_valid_nonempty (method : string) :
  http_validMethod (http_method method) = true ->
  http_validMethod method = true ∨ method = "".
Proof.
  unfold http_method. destruct (decide (method = "")); [by right|by left].
Qed.

(** Uses what is known of the method, or splits on its validity. *)
Ltac method_cases :=
  cbv zeta;
  try match goal with
      | H : http_method ?m = ?m |- _ => rewrite ?H
      end;
  try match goal with
      | H : http_validMethod _ = _ |- _ => rewrite ?H
      end;
  try match goal with
      | |- context [http_validMethod ?m] =>
          let E := fresh "Evalid" in destruct (http_validMethod m) eqn:E
      end;
  cbn [negb].

(** Splits on every answer of the world [w] to a signature or a dispatch. *)
Ltac answers w :=
  repeat match goal with
         | |- context [w _ (OAuthAuthorizationHeader ?c ?cr ?m ?u ?f)] =>
             let E := fresh "Eoauth" in
             destruct (w _ (OAuthAuthorizationHeader c cr m u f)) eqn:E;
             simpl
         | |- context [w _ (HttpClientDo ?r)] =>
             let E := fresh "Ehttp" in
             destruct (w _ (HttpClientDo r)) eqn:E; simpl
         end.

(** Unfolds [Do] of part_000 and splits on the answers of the world. *)
Ltac part_000_Do_cases w :=
  unfold part_000.Do, trace, result; simpl; answers w.

(** Unfolds [NewRequest] and [Do] of part_001 on a non-empty path and splits
    on the method, on the parse of the URL and on the answers of the world. *)
Ltac part_001_cases w :=
  unfold part_001.Do, part_001.NewRequest, trace, result; simpl slice01;
  cbv beta iota zeta; rewrite ?slash_test; unfold http_NewRequest;
  method_cases;
  try match goal with
  | |- context [url_Parse ?s] =>
      let u := fresh "u" in
      let e := fresh "e" in
      let E := fresh "Hparse" in
      destruct (url_Parse s) as [u|e] eqn:E
  end; simpl; answers w.

(** Unfolds [Do] of contextIO.go on a non-empty path [String a p], a body
    and a URL that parses, and splits on the method and on every answer of
    the world [w]. *)
Ltac contextIO_go_Do_cases w Hparse :=
  unfold contextIO_go.Do, trace, result; simpl slice01; cbv beta iota;
  rewrite ?slash_test; unfold http_NewRequest; method_cases;
  rewrite ?Hparse;
  cbv beta iota zeta;
  try match goal with
      | |- context [bool_decide (?m ∈ ?l)] =>
          let E := fresh "Emethod" in destruct (bool_decide (m ∈ l)) eqn:E
      end;
  repeat match goal with
         | |- context [url_ParseQuery ?b] =>
             let v := fresh "v" in
             let e := fresh "e" in
             let E := fresh "Equery" in
             destruct (url_ParseQuery b) as [v [e|]] eqn:E
         end;
  simplify_eq; simpl;
  repeat match goal with
         | |- context [w _ (OAuthAuthorizationHeader ?c ?cr ?m ?u ?f)] =>
             let E := fresh "Eoauth" in
             destruct (w _ (OAuthAuthorizationHeader c cr m u f)) eqn:E;
             simpl
         | |- context [w _ (HttpClientDo ?r)] =>
             let E := fresh "Ehttp" in
             destruct (w _ (HttpClientDo r)) eqn:E; simpl
         end.

Section contextIO_go_facts.
Context `{GoLib} `{Flags}.
Variables (w : World) (c : ContextIO) (method q : string) (params : Values).

(** What [Do] of contextIO.go signs and which Authorization header it
    sends, for a mutating method and a body that parses. *)
Lemma contextIO_go_Do_signs (body : string) (u : url.URL) (v : Values) :
  q ≠ "" ->
  method ∈ ["PUT"; "POST"; "DELETE"] ->
  url_Parse ("https://" +:+ apiHost +:+ with_slash q) = inl u ->
  url_ParseQuery body = (v, None) ->
  signed (trace w (contextIO_go.Do c method q params (Some body)))
  = [(method, url.set_Opaque (with_slash q) u, v)]
  ∧ map Authorization
      (dispatched (trace w (contextIO_go.Do c method q params (Some body))))
    = match w _ (OAuthAuthorizationHeader (client c) None method
                   (url.set_Opaque (with_slash q) u) v) with
      | inl h => [Some [h]]
      | inr _ => []
      end.
Proof.
  intros Hq Hm Hparse Hquery. destruct q as [|a p]; [done|].
  destruct (mutating_method_valid _ Hm) as [Hmeth Hvalid].
  contextIO_go_Do_cases w Hparse;
    try (apply bool_decide_eq_false in Emethod; done);
    try done.
  all: unfold Authorization; simpl; unfold http.Header_Set.
  all: by rewrite lookup_insert_eq.
Qed.

(** C4.  In contextIO.go, when the body of a PUT, POST or DELETE does not
    parse as form data, [Do] returns nil and the error of [url.ParseQuery]
    as it is; it makes no call at all: nothing is signed, nothing is
    sent. *)
Theorem malformed_body_error_returned (body : string) (u : url.URL)
    (v : Values) (err : error) :
  q ≠ "" ->
  method ∈ ["PUT"; "POST"; "DELETE"] ->
  url_Parse ("https://" +:+ apiHost +:+ with_slash q) = inl u ->
  url_ParseQuery body = (v, Some err) ->
  contextIO_go.Do c method q params (Some body) = Ret (None, Some err)
  ∧ run w (contextIO_go.Do c method q params (Some body))
    = (Returned (None, Some err), [])
  ∧ signed (trace w (contextIO_go.Do c method q params (Some body))) = []
  ∧ dispatched (trace w (contextIO_go.Do c method q params (Some body)))
    = [].
Proof.
  intros Hq Hm Hparse Hquery. destruct q as [|a p]; [done|].
  assert (E : contextIO_go.Do c method (String a p) params (Some body)
              = Ret (None, Some err)).
  { destruct (mutating_method_valid _ Hm) as [Hmeth Hvalid].
    unfold contextIO_go.Do. simpl slice01. cbv beta iota.
    rewrite slash_test. unfold http_NewRequest. method_cases.
    rewrite Hparse.
    cbv beta iota zeta. rewrite bool_decide_eq_true_2 by done.
    by rewrite Hquery. }
  unfold trace. by rewrite E.
Qed.

(** C1, as amended.  In contextIO.go, for a PUT, POST or DELETE whose body
    parses as form data, the parsed parameters are the form that the OAuth
    header is computed over, together with the method and the URL, and the
    value computed is the Authorization header of the request sent.  Two
    bodies that parse to the same parameters therefore get the same
    Authorization header, under the same nonce and timestamp; headers can
    differ only through the parsed parameters. *)
Theorem parsed_body_is_signed (body1 body2 : string) (u : url.URL)
    (v : Values) :
  q ≠ "" ->
  method ∈ ["PUT"; "POST"; "DELETE"] ->
  url_Parse ("https://" +:+ apiHost +:+ with_slash q) = inl u ->
  url_ParseQuery body1 = (v, None) ->
  url_ParseQuery body2 = (v, None) ->
  signed (trace w (contextIO_go.Do c method q params (Some body1)))
  = [(method, url.set_Opaque (with_slash q) u, v)]
  ∧ map Authorization
      (dispatched (trace w (contextIO_go.Do c method q params (Some body1))))
    = match w _ (OAuthAuthorizationHeader (client c) None method
                   (url.set_Opaque (with_slash q) u) v) with
      | inl h => [Some [h]]
      | inr _ => []
      end
  ∧ map Authorization
      (dispatched (trace w (contextIO_go.Do c method q params (Some body1))))
    = map Authorization
        (dispatched
           (trace w (contextIO_go.Do c method q params (Some body2)))).
Proof.
  intros Hq Hm Hparse Hq1 Hq2.
  destruct (contextIO_go_Do_signs body1 u v) as [S1 A1]; try done.
  destruct (contextIO_go_Do_signs body2 u v) as [S2 A2]; try done.
  by rewrite A1, A2.
Qed.
End contextIO_go_facts.

Lemma malformed_body_error_returned_witness :
  url_ParseQuery "a=%zz" = (∅, Some (ref.EscapeError "%zz"))
  ∧ contextIO_go.Do (NewContextIO "k" "s") "POST" "2.0/accounts" ∅
      (Some "a=%zz")
    = Ret (None, Some (ref.EscapeError "%zz")).
Proof.
  split; [reflexivity|].
  refine (proj1 (malformed_body_error_returned ref.world (NewContextIO "k" "s")
                   "POST" "2.0/accounts" ∅ "a=%zz"
                   (url.mkURL "https" "" "api.context.io" "/2.0/accounts" "" ""
                      false)
                   ∅ (ref.EscapeError "%zz") _ _ _ _)).
  - discriminate.
  - apply list_elem_of_further, list_elem_of_here.
  - reflexivity.
  - reflexivity.
Defined.

Lemma parsed_body_is_signed_witness :
  map Authorization
    (dispatched (trace ref.world
       (contextIO_go.Do (NewContextIO "k" "s") "POST" "2.0/accounts" ∅
          (Some "a=1&b=2"))))
  = map Authorization
      (dispatched (trace ref.world
         (contextIO_go.Do (NewContextIO "k" "s") "POST" "2.0/accounts" ∅
            (Some "b=2&a=1")))).
Proof.
  refine (proj2 (proj2 (parsed_body_is_signed ref.world (NewContextIO "k" "s")
                   "POST" "2.0/accounts" ∅ "a=1&b=2" "b=2&a=1"
                   (url.mkURL "https" "" "api.context.io" "/2.0/accounts" "" ""
                   false)
                   {[ "a" := ["1"]; "b" := ["2"] ]} _ _ _ _ _))).
  - discriminate.
  - apply list_elem_of_further, list_elem_of_here.
  - reflexivity.
  - reflexivity.
  - reflexivity.
Defined.

(** C1, as stated, fails: two different bodies, both well-formed, with the
    same parameters in another order, get the same Authorization header from
    [Do] of contextIO.go in every world, the reference world included, where
    the header is sent. *)
Lemma different_bodies_same_authorization :
  "a=1&b=2" ≠ "b=2&a=1"
  ∧ url_ParseQuery "a=1&b=2" = ({[ "a" := ["1"]; "b" := ["2"] ]}, None)
  ∧ url_ParseQuery "b=2&a=1" = ({[ "a" := ["1"]; "b" := ["2"] ]}, None)
  ∧ (∀ w : World,
       map Authorization
         (dispatched (trace w
            (contextIO_go.Do (NewContextIO "k" "s") "POST" "/2.0/accounts" ∅
               (Some "a=1&b=2"))))
       = map Authorization
           (dispatched (trace w
              (contextIO_go.Do (NewContextIO "k" "s") "POST" "/2.0/accounts" ∅
                 (Some "b=2&a=1")))))
  ∧ map Authorization
      (dispatched (trace ref.world
         (contextIO_go.Do (NewContextIO "k" "s") "POST" "/2.0/accounts" ∅
            (Some "b=2&a=1"))))
    = [Some ["OAuth oauth_consumer_key=k, oauth_signature=POST%26https%3A%2F%2Fapi.context.io%2F2.0%2Faccounts%26a%3D1%26b%3D2"]].
Proof.
  split; [discriminate|]. split; [reflexivity|]. split; [reflexivity|].
  split; [|reflexivity].
  intros w.
  pose (u := url.mkURL "https" "" "api.context.io" "/2.0/accounts" "" ""
              false).
  assert (Hm : "POST" ∈ ["PUT"; "POST"; "DELETE"])
    by apply list_elem_of_further, list_elem_of_here.
  destruct (contextIO_go_Do_signs w (NewContextIO "k" "s") "POST"
              "/2.0/accounts" ∅ "a=1&b=2" u {[ "a" := ["1"]; "b" := ["2"] ]})
    as [_ ->]; [discriminate|done|reflexivity|reflexivity|].
  destruct (contextIO_go_Do_signs w (NewContextIO "k" "s") "POST"
              "/2.0/accounts" ∅ "b=2&a=1" u {[ "a" := ["1"]; "b" := ["2"] ]})
    as [_ ->]; [discriminate|done|reflexivity|reflexivity|].
  reflexivity.
Qed.

(** C3.  [Do] of contextIO.go never reads its [params]: whatever they are,
    the program is the same, and the request sent for
    GET /2.0/accounts with limit=1 has no query string, where part_000 and
    part_001 send limit=1. *)
Theorem contextIO_go_Do_ignores_params :
  (∀ (L : GoLib) (F : Flags) (c : ContextIO) (method q : string)
     (params params' : Values) (body : option string),
     contextIO_go.Do c method q params body
     = contextIO_go.Do c method q params' body)
  ∧ map (fun r => (url.RawQuery (http.URL r), url_RequestURI (http.URL r)))
      (dispatched (trace ref.world
         (contextIO_go.Do (NewContextIO "k" "s") "GET" "/2.0/accounts"
            {[ "limit" := ["1"] ]} (Some ""))))
    = [("", "/2.0/accounts")]
  ∧ map (fun r => (url.RawQuery (http.URL r), url_RequestURI (http.URL r)))
      (dispatched (trace ref.world
         (part_000.Do (NewContextIO "k" "s") "GET" "/2.0/accounts"
            {[ "limit" := ["1"] ]} None)))
    = [("limit=1", "/2.0/accounts?limit=1")]
  ∧ map (fun r => (url.RawQuery (http.URL r), url_RequestURI (http.URL r)))
      (dispatched (trace ref.world
         (part_001.Do (NewContextIO "k" "s") "GET" "/2.0/accounts"
            {[ "limit" := ["1"] ]} ∅)))
    = [("limit=1", "/2.0/accounts?limit=1")].
Proof.
  split; [reflexivity|]. repeat split; vm_compute; reflexivity.
Qed.

Section reading_the_response.
Context `{GoLib} `{Flags}.
Variables (w : World).

(** The part of [DoJSON] after the call of [Do], the same in the three
    versions. *)
Lemma read_all_after (m : go (option http.Response * option error)) :
  result w
    (let* (response, err) := m in
     match err with
     | Some err => Ret (None, Some err)
     | None =>
         match response with
         | None => Panic NilPointerDereference
         | Some response =>
             let '(json, err) := ioutil_ReadAll (http.RespBody response) in
             let* _ := call (BodyClose response) in
             Ret (Some json, err)
         end
     end)
  = DispatchJSON_spec (result w m).
Proof.
  rewrite result_bind. destruct (result w m) as [[[r|] [e|]]|p]; done.
Qed.

(** C9.  In the three versions, [DoJSON] returns nil and the error of [Do]
    as it is when [Do] fails; when [Do] succeeds it returns what
    [ioutil.ReadAll] read of the response body, with the error that stopped
    the reading if there was one. *)
Theorem DoJSON_reads_or_propagates (c : ContextIO) (method q : string)
    (params postParams : Values) (reader : option io.Stream)
    (body : option string) :
  result w (part_000.DoJSON c method q params reader)
  = DispatchJSON_spec (result w (part_000.Do c method q params reader))
  ∧ result w (contextIO_go.DoJSON c method q params body)
    = DispatchJSON_spec (result w (contextIO_go.Do c method q params body))
  ∧ result w (part_001.DoJSON c method q params postParams body)
    = DispatchJSON_spec
        (result w (part_001.Do c method q params postParams)).
Proof.
  unfold part_000.DoJSON, contextIO_go.DoJSON, part_001.DoJSON.
  by rewrite !read_all_after.
Qed.
End reading_the_response.

Section attaching_a_file.
Context `{GoLib}.

Lemma AttachFile_vals_writes (writer : multipart.Writer) (key : string)
    (valSlice : list string) :
  part_001.AttachFile_vals writer key valSlice
  = ({| multipart.Boundary := multipart.Boundary writer;
        multipart.parts :=
          multipart.parts writer ++ map (multipart.FormField key) valSlice;
        multipart.closed := multipart.closed writer |}, None).
Proof.
  revert writer. induction valSlice as [|val vals IH]; intros writer; simpl.
  - rewrite app_nil_r. by destruct writer.
  - rewrite IH. simpl. by rewrite <- app_assoc.
Qed.

Lemma AttachFile_form_writes (writer : multipart.Writer)
    (form : list (string * list string)) :
  part_001.AttachFile_form writer form
  = ({| multipart.Boundary := multipart.Boundary writer;
        multipart.parts := multipart.parts writer ++ form_fields form;
        multipart.closed := multipart.closed writer |}, None).
Proof.
  revert writer. induction form as [|[key vals] form IH]; intros writer; simpl.
  - rewrite app_nil_r. by destruct writer.
  - rewrite AttachFile_vals_writes, IH. simpl. by rewrite <- app_assoc.
Qed.

(** One run of [AttachFile], call by call. *)
Lemma AttachFile_run (w : World) (c : ContextIO) (req : http.Request)
    (fieldName fileName : string) :
  run w (part_001.AttachFile c req fieldName fileName)
  = match w _ (OsOpen fileName) with
    | inr err =>
        (Returned (req, Some err), [Event (OsOpen fileName) (inr err)])
    | inl f =>
        let boundary := w _ RandomBoundary in
        let form := w _ (MapRange (http.PostForm req)) in
        let writer :=
          attached_writer fieldName fileName f boundary (proj1_sig form) in
        let req1 :=
          http.set_Body (Some (io_ReadCloser.MultipartBuffer writer)) req in
        let req2 :=
          http.read_Body
            (http_ParseMultipartForm_read req1 part_001.defaultMaxMemory)
            (http.set_Forms
               (fst (http_ParseMultipartForm req1 part_001.defaultMaxMemory))
               req1) in
        (Returned
           (http.set_Header
              (http.Header_Set "Content-Type"
                 ("multipart/form-data; boundary=" +:+ boundary)
                 (http.Header req)) req2, None),
         [Event (OsOpen fileName) (inl f); Event RandomBoundary boundary;
          Event (MapRange (http.PostForm req)) form])
    end.
Proof.
  unfold part_001.AttachFile. simpl.
  destruct (w _ (OsOpen fileName)) as [f|err]; [|done]. simpl.
  rewrite AttachFile_form_writes. simpl. done.
Qed.
End attaching_a_file.


Section attached_body.
Context `{GoLib}.
Variables (w : World) (c : ContextIO) (req : http.Request).
Variables (fieldName fileName : string).


(** C6.  [AttachFile] never panics, signs nothing and sends nothing.  Of the
    request it leaves the method, the URL, the host, the content length and
    every header but Content-Type as they were, the Authorization header
    among them.  When it succeeds, the body is the multipart buffer, the
    Content-Type is multipart/form-data with the boundary of the writer, and
    the three form fields are what [ParseMultipartForm] made of them; when
    it fails, the request is untouched. *)
Theorem AttachFile_frame :
  ∃ (req' : http.Request) (err : option error) (t : list event),
    run w (part_001.AttachFile c req fieldName fileName)
    = (Returned (req', err), t)
    ∧ http.Method req' = http.Method req
    ∧ http.URL req' = http.URL req
    ∧ http.Host req' = http.Host req
    ∧ http.ContentLength req' = http.ContentLength req
    ∧ (∀ k, k ≠ "Content-Type" ->
         http.Header req' !! k = http.Header req !! k)
    ∧ Authorization req' = Authorization req
    ∧ signed t = [] ∧ dispatched t = []
    ∧ (err = None ->
       ContentType req'
       = Some ["multipart/form-data; boundary=" +:+ w _ RandomBoundary]
       ∧ ∃ writer,
           http.Body req' = Some (io_ReadCloser.MultipartBuffer writer)
           ∧ multipart.Boundary writer = w _ RandomBoundary
           ∧ {| http.forms_Form := http.Form req';
                http.forms_PostForm := http.PostForm req';
                http.forms_MultipartForm := http.MultipartForm req' |}
             = fst (http_ParseMultipartForm
                      (http.set_Body
                         (Some (io_ReadCloser.MultipartBuffer writer)) req)
                      part_001.defaultMaxMemory))
    ∧ (err ≠ None -> req' = req).
Proof.
  rewrite AttachFile_run.
  destruct (w _ (OsOpen fileName)) as [f|e].
  - cbv zeta. eexists _, None, _. split; [reflexivity|].
    unfold Authorization, ContentType, http.Header_Set. simpl.
    repeat split; try done.
    + intros k Hk. by rewrite lookup_insert_ne.
    + by rewrite lookup_insert_ne.
    + by rewrite lookup_insert_eq.
    + eexists. repeat split.
      by destruct (http_ParseMultipartForm _ _) as [[] ?].
  - eexists req, (Some e), _. split; [reflexivity|].
    repeat split; try done.
Qed.
End attached_body.



Lemma append_nil_r (s : string) : s +:+ "" = s.
Proof.
  induction s as [|a s IH]; [done|].
  change (String a s +:+ "") with (String a (s +:+ "")). by rewrite IH.
Qed.

Lemma append_assoc (s1 s2 s3 : string) :
  (s1 +:+ s2) +:+ s3 = s1 +:+ s2 +:+ s3.
Proof.
  induction s1 as [|a s1 IH]; [done|].
  change ((String a s1 +:+ s2) +:+ s3) with (String a ((s1 +:+ s2) +:+ s3)).
  by rewrite IH.
Qed.

(** Decomposes the membership of an element in an explicit list. *)
Ltac elems :=
  repeat match goal with
         | H : _ ∈ [] |- _ => inversion H
         | H : _ ∈ _ :: _ |- _ => inversion H; clear H; subst
         end.

Section target_url.
Context `{GoLib} `{Flags}.
Variables (w : World) (c : ContextIO) (method q : string).


(** The string that [NewRequest] of part_001 hands to [http.NewRequest]. *)
Lemma part_001_url_string (a : ascii) (p : string) (queryParams : Values) :
  (if decide (0 < len queryParams)
   then (apiHost +:+ with_slash (String a p)) +:+ "?"
        +:+ Values_Encode queryParams
   else apiHost +:+ with_slash (String a p))
  = apiHost +:+ with_slash (String a p) +:+ query_suffix queryParams.
Proof.
  unfold query_suffix. destruct (decide (0 < len queryParams));
    [by rewrite append_assoc|by rewrite append_nil_r].
Qed.


(** C8, as amended.  A request that [Do] of contextIO.go sends with method
    PUT, POST or DELETE has the Content-Type
    application/x-www-form-urlencoded; after a successful [AttachFile] the
    Content-Type of a request is multipart/form-data with the boundary of
    the writer. *)
Theorem content_type_of_mutating_requests (params : Values)
    (body : option string) :
  method ∈ ["PUT"; "POST"; "DELETE"] ->
  (∀ r, r ∈ dispatched (trace w (contextIO_go.Do c method q params body)) ->
        ContentType r = Some ["application/x-www-form-urlencoded"])
  ∧ (∀ req fieldName fileName req',
       result w (part_001.AttachFile c req fieldName fileName)
       = Returned (req', None) ->
       ContentType req'
       = Some ["multipart/form-data; boundary=" +:+ w _ RandomBoundary]).
Proof.
  intros Hm. destruct (mutating_method_valid _ Hm) as [Hmeth Hvalid]. split.
  - intros r Hr.
    destruct q as [|a p]; [by simpl in *; elems|].
    destruct body as [b|]; [|by simpl in *; elems].
    destruct (url_Parse ("https://" +:+ apiHost +:+ with_slash (String a p)))
      as [u|e] eqn:Hparse.
    + revert Hr.
      contextIO_go_Do_cases w Hparse;
        try (apply bool_decide_eq_false in Emethod; done);
        intros Hr; elems.
      all: unfold ContentType, http.Header_Set; simpl.
      all: by rewrite lookup_insert_ne, lookup_insert_eq.
    + revert Hr. unfold contextIO_go.Do, trace. simpl slice01.
      cbv beta iota. rewrite slash_test. unfold http_NewRequest.
      method_cases. rewrite Hparse. simpl. intros Hr. by elems.
  - intros req fieldName fileName req'. unfold result.
    rewrite AttachFile_run.
    destruct (w _ (OsOpen fileName)); [|done]. cbv zeta. simpl.
    intros [= <-]. unfold ContentType, http.Header_Set. simpl.
    by rewrite lookup_insert_eq.
Qed.
End target_url.



Lemma content_type_of_mutating_requests_witness :
  map ContentType
    (dispatched (trace ref.world
       (contextIO_go.Do (NewContextIO "k" "s") "POST" "2.0/accounts" ∅
          (Some "a=1"))))
  = [Some ["application/x-www-form-urlencoded"]]
  ∧ (∀ r,
       r ∈ dispatched (trace ref.world
             (contextIO_go.Do (NewContextIO "k" "s") "POST" "2.0/accounts" ∅
                (Some "a=1"))) ->
       ContentType r = Some ["application/x-www-form-urlencoded"]).
Proof.
  split; [reflexivity|].
  refine (proj1 (content_type_of_mutating_requests ref.world
                   (NewContextIO "k" "s") "POST" "2.0/accounts" ∅
                   (Some "a=1") _)).
  apply list_elem_of_further, list_elem_of_here.
Defined.

(** ** What the other versions do with the body and the content type *)

Section other_versions.
Context `{GoLib} `{Flags}.
Variables (w : World) (c : ContextIO) (method q : string).

(** part_000 passes a nil form to the signature, whatever the body is. *)
Lemma part_000_Do_signs_no_form (params : Values) (reader : option io.Stream)
    (s : string * url.URL * Values) :
  s ∈ signed (trace w (part_000.Do c method q params reader)) -> s.2 = ∅.
Proof.
  unfold part_000.Do, trace. simpl.
  destruct (w _ (OAuthAuthorizationHeader _ _ _ _ _)); simpl;
    [destruct (w _ (HttpClientDo _)); simpl|];
    intros Hs; elems; done.
Qed.

(** part_001 never reads [postParams]. *)
Lemma part_001_NewRequest_ignores_postParams
    (queryParams postParams postParams' : Values) :
  part_001.NewRequest c method q queryParams postParams
  = part_001.NewRequest c method q queryParams postParams'.
Proof. reflexivity. Qed.

(** The requests of part_001 have no body and no Content-Type until a file
    is attached. *)
Lemma part_001_NewRequest_sets_no_content_type
    (queryParams postParams : Values) (req : part_001.Request)
    (err : option error) :
  result w (part_001.NewRequest c method q queryParams postParams)
  = Returned (Some req, err) ->
  ContentType (part_001.Request_ req) = None
  ∧ http.Body (part_001.Request_ req) = None.
Proof.
  destruct q as [|a p]; [done|].
  unfold part_001.NewRequest, result. simpl slice01. cbv beta iota zeta.
  unfold http_NewRequest. method_cases; [|done].
  destruct (url_Parse _) as [u|e]; [|done]. simpl.
  destruct (w _ (OAuthAuthorizationHeader _ _ _ _ _)); simpl;
    intros [= <- <-]; unfold ContentType, http.Header_Set; simpl;
    by rewrite ?lookup_insert_ne, lookup_empty.
Qed.
End other_versions.

(** ** The three versions on GET 2.0/accounts, in the reference world *)

Example target_url_example :
  map (fun s => s.1.2)
    (signed (trace ref.world
       (part_000.Do (NewContextIO "k" "s") "GET" "2.0/accounts" ∅ None)))
  = [url.mkURL "https" "2.0/accounts" "api.context.io" "" "" "" false]
  ∧ map (fun s => s.1.2)
      (signed (trace ref.world
         (contextIO_go.Do (NewContextIO "k" "s") "GET" "2.0/accounts" ∅
            (Some ""))))
    = [url.mkURL "https" "/2.0/accounts" "api.context.io" "/2.0/accounts"
         "" "" false]
  ∧ map (fun r => url_RequestURI (http.URL r))
      (dispatched (trace ref.world
         (part_001.Do (NewContextIO "k" "s") "GET" "2.0/user%40example.com"
            {[ "limit" := ["1"] ]} ∅)))
    = ["/2.0/user%40example.com?limit=1"].
Proof. repeat split; vm_compute; reflexivity. Qed.

Example AttachFile_example :
  let req :=
    http.mkRequest "POST"
      (url.mkURL "https" "/2.0/files" "api.context.io" "/2.0/files" "" ""
         false)
      {[ "Authorization" := ["OAuth"] ]} None 0 "api.context.io" ∅
      {[ "a" := ["1"; "2"]; "b" := ["3"] ]} None 0 in
  ∃ req',
    result ref.world
      (part_001.AttachFile (NewContextIO "k" "s") req "file" "/tmp/photo.png")
    = Returned (req', None)
    ∧ Authorization req' = Some ["OAuth"]
    ∧ ContentType req' = Some ["multipart/form-data; boundary=4f6d1c"]
    ∧ http.Body req'
      = Some (io_ReadCloser.MultipartBuffer
                (multipart.mkWriter "4f6d1c"
                   [multipart.FormFile "file" "photo.png" "PNG";
                    multipart.FormField "a" "1"; multipart.FormField "a" "2";
                    multipart.FormField "b" "3"] true)).
Proof. eexists. repeat split; vm_compute; reflexivity. Qed.

Example multipart_bytes_example :
  multipart.Bytes
    (multipart.mkWriter "4f6d1c" [multipart.FormField "a" "1"] true)
  = "--4f6d1c" +:+ multipart.CRLF
    +:+ "Content-Disposition: form-data; name=" +:+ multipart.quoted "a"
    +:+ multipart.CRLF +:+ multipart.CRLF +:+ "1" +:+ multipart.CRLF
    +:+ "--4f6d1c--" +:+ multipart.CRLF.
Proof. reflexivity. Qed.

Example DoJSON_example :
  result ref.world
    (contextIO_go.DoJSON (NewContextIO "k" "s") "GET" "2.0/accounts" ∅
       (Some ""))
  = Returned (Some "[]", None)
  ∧ result ref.world
      (contextIO_go.DoJSON (NewContextIO "k" "s") "POST" "2.0/accounts" ∅
         (Some "a=%zz"))
    = Returned (None, Some (ref.EscapeError "%zz")).
Proof. split; vm_compute; reflexivity. Qed.

(** C8, as stated, fails on part_001, the version that has [AttachFile]: a
    POST request built by [NewRequest], to which no file is attached, has no
    Content-Type at all, in every world, and goes out without one. *)
Lemma part_001_request_without_content_type :
  "POST" ∈ ["PUT"; "POST"; "DELETE"]
  ∧ (∃ req,
       result ref.world
         (part_001.NewRequest (NewContextIO "k" "s") "POST" "/2.0/accounts" ∅
            {[ "a" := ["1"] ]})
       = Returned (Some req, None)
       ∧ http.Method (part_001.Request_ req) = "POST"
       ∧ ContentType (part_001.Request_ req) = None)
  ∧ (∀ (w : World) req err,
       result w
         (part_001.NewRequest (NewContextIO "k" "s") "POST" "/2.0/accounts" ∅
            {[ "a" := ["1"] ]})
       = Returned (Some req, err) ->
       ContentType (part_001.Request_ req) = None)
  ∧ map ContentType
      (dispatched (trace ref.world
         (part_001.Do (NewContextIO "k" "s") "POST" "/2.0/accounts" ∅
            {[ "a" := ["1"] ]})))
    = [None].
Proof.
  split; [apply list_elem_of_further, list_elem_of_here|].
  split; [eexists; repeat split; vm_compute; reflexivity|].
  split; [|vm_compute; reflexivity].
  intros w req err Hreq.
  by destruct (part_001_NewRequest_sets_no_content_type _ _ _ _ _ _ _ _ Hreq).
Qed.

(** ** Further properties of the three versions *)

(** Every run of [Do] of contextIO.go: on the empty path, without a body,
    with a URL that does not parse, and else by method and answers. *)
Ltac contextIO_go_Do_runs w q body :=
  let a := fresh "a" in
  let p := fresh "p" in
  let b := fresh "b" in
  let u := fresh "u" in
  let e := fresh "e" in
  let Hparse := fresh "Hparse" in
  destruct q as [|a p]; [simpl|];
  [|destruct body as [b|]; [|simpl];
    [destruct (url_Parse ("https://" +:+ apiHost +:+ with_slash (String a p)))
       as [u|e] eqn:Hparse;
     [contextIO_go_Do_cases w Hparse
     |unfold contextIO_go.Do, trace, result; simpl slice01; cbv beta iota;
      rewrite ?slash_test; unfold http_NewRequest; method_cases;
      rewrite ?Hparse; simpl]
    |]].

Section signing_and_sending.
Context `{GoLib} `{Flags}.
Variables (w : World) (method q : string).

(** X1.  The signature is two-legged: every OAuth header is computed with
    the client that [NewContextIO] made of the key and the secret, and with
    nil token credentials. *)
Theorem two_legged_signing (key secret : string) (params postParams : Values)
    (reader : option io.Stream) (body : option string) :
  let client :=
    {| oauth.Credentials_ :=
         {| oauth.Token := key; oauth.Secret := secret |} |} in
  (∀ x, x ∈ oauth_calls (trace w (part_000.Do (NewContextIO key secret)
                                     method q params reader)) ->
        x = (client, None))
  ∧ (∀ x, x ∈ oauth_calls (trace w (contextIO_go.Do (NewContextIO key secret)
                                       method q params body)) ->
          x = (client, None))
  ∧ (∀ x, x ∈ oauth_calls (trace w (part_001.Do (NewContextIO key secret)
                                       method q params postParams)) ->
          x = (client, None)).
Proof.
  cbv zeta. split; [|split]; intros x.
  - part_000_Do_cases w; intros Hx; elems; done.
  - contextIO_go_Do_runs w q body; intros Hx; elems; done.
  - destruct q as [|a p]; [simpl; intros Hx; by elems|].
    part_001_cases w; intros Hx; elems; done.
Qed.
End signing_and_sending.

Section requests_sent.
Context `{GoLib} `{Flags}.
Variables (w : World) (c : ContextIO) (method q : string).

(** X2.  The headers of a request that is sent are exactly these: the
    User-Agent of the version, the Content-Type of a PUT, POST or DELETE in
    contextIO.go, and the Authorization header, each with one value. *)
Theorem headers_of_sent_requests (params postParams : Values)
    (reader : option io.Stream) (body : option string) :
  (∀ r, r ∈ dispatched (trace w (part_000.Do c method q params reader)) ->
        ∃ h, http.Header r
             = <["Authorization" := [h]]>
                 {[ "User-Agent" := ["GoContextIO Simple Library"] ]})
  ∧ (∀ r, r ∈ dispatched (trace w (contextIO_go.Do c method q params body)) ->
          ∃ h, http.Header r
               = <["Authorization" := [h]]>
                   (if bool_decide (method ∈ ["PUT"; "POST"; "DELETE"])
                    then <["Content-Type" :=
                             ["application/x-www-form-urlencoded"]]>
                           (<["User-Agent" :=
                                ["GoContextIO Simple Library v. 0.1"]]> ∅)
                    else <["User-Agent" :=
                             ["GoContextIO Simple Library v. 0.1"]]> ∅))
  ∧ (∀ r, r ∈ dispatched
              (trace w (part_001.Do c method q params postParams)) ->
          ∃ h, http.Header r
               = <["Authorization" := [h]]>
                   (<["User-Agent" :=
                        ["GoContextIO Simple Library v. 0.1"]]> ∅)).
Proof.
  split; [|split]; intros r.
  - part_000_Do_cases w; intros Hr; elems; by eexists.
  - contextIO_go_Do_runs w q body; intros Hr; elems; by eexists.
  - destruct q as [|a p]; [simpl; intros Hr; by elems|].
    part_001_cases w; intros Hr; elems; by eexists.
Qed.

(** X3.  What is sent is what was signed: a request reaches the HTTP client
    only after one OAuth computation over its own method and URL has
    succeeded, its Authorization header is the value computed, and it is
    the only request of the run. *)
Theorem sent_request_is_signed (params postParams : Values)
    (reader : option io.Stream) (body : option string) :
  (∀ r, let t := trace w (part_000.Do c method q params reader) in
        r ∈ dispatched t ->
        ∃ form h,
          signed t = [(http.Method r, http.URL r, form)]
          ∧ w _ (OAuthAuthorizationHeader (client c) None (http.Method r)
                   (http.URL r) form) = inl h
          ∧ Authorization r = Some [h] ∧ dispatched t = [r])
  ∧ (∀ r, let t := trace w (contextIO_go.Do c method q params body) in
          r ∈ dispatched t ->
          ∃ form h,
            signed t = [(http.Method r, http.URL r, form)]
            ∧ w _ (OAuthAuthorizationHeader (client c) None (http.Method r)
                     (http.URL r) form) = inl h
            ∧ Authorization r = Some [h] ∧ dispatched t = [r])
  ∧ (∀ r, let t := trace w (part_001.Do c method q params postParams) in
          r ∈ dispatched t ->
          ∃ form h,
            signed t = [(http.Method r, http.URL r, form)]
            ∧ w _ (OAuthAuthorizationHeader (client c) None (http.Method r)
                     (http.URL r) form) = inl h
            ∧ Authorization r = Some [h] ∧ dispatched t = [r]).
Proof.
  split; [|split]; intros r; cbv zeta.
  - part_000_Do_cases w; intros Hr; elems.
    all: eexists _, _; repeat split; try eassumption.
    all: unfold Authorization, http.Header_Set; simpl.
    all: by rewrite lookup_insert_eq.
  - contextIO_go_Do_runs w q body; intros Hr; elems.
    all: eexists _, _; repeat split; try eassumption.
    all: unfold Authorization, http.Header_Set; simpl.
    all: by rewrite lookup_insert_eq.
  - destruct q as [|a p]; [simpl; intros Hr; by elems|].
    part_001_cases w; intros Hr; elems.
    all: eexists _, _; repeat split; try eassumption.
    all: unfold Authorization, http.Header_Set; simpl.
    all: by rewrite lookup_insert_eq.
Qed.

(** X4.  When the OAuth computation fails, [Do] returns nil and that error
    as it is, and sends nothing.  [NewRequest] of part_001 then returns the
    error together with the request it has built, which has no Authorization
    header. *)
Theorem signing_error_is_returned (params postParams : Values)
    (reader : option io.Stream) (body : option string) (err : error) :
  (∀ s, let m := part_000.Do c method q params reader in
        s ∈ signed (trace w m) ->
        w _ (OAuthAuthorizationHeader (client c) None s.1.1 s.1.2 s.2)
        = inr err ->
        result w m = Returned (None, Some err) ∧ dispatched (trace w m) = [])
  ∧ (∀ s, let m := contextIO_go.Do c method q params body in
          s ∈ signed (trace w m) ->
          w _ (OAuthAuthorizationHeader (client c) None s.1.1 s.1.2 s.2)
          = inr err ->
          result w m = Returned (None, Some err)
          ∧ dispatched (trace w m) = [])
  ∧ (∀ s, let m := part_001.Do c method q params postParams in
          s ∈ signed (trace w m) ->
          w _ (OAuthAuthorizationHeader (client c) None s.1.1 s.1.2 s.2)
          = inr err ->
          result w m = Returned (None, Some err)
          ∧ dispatched (trace w m) = [])
  ∧ (∀ s, let m := part_001.NewRequest c method q params postParams in
          s ∈ signed (trace w m) ->
          w _ (OAuthAuthorizationHeader (client c) None s.1.1 s.1.2 s.2)
          = inr err ->
          ∃ req, result w m = Returned (Some req, Some err)
                 ∧ Authorization (part_001.Request_ req) = None).
Proof.
  split; [|split; [|split]]; intros s; cbv zeta.
  - part_000_Do_cases w; intros Hs He; elems; simpl in *; try congruence;
      split; congruence.
  - contextIO_go_Do_runs w q body; intros Hs He; elems; simpl in *;
      try congruence; split; congruence.
  - destruct q as [|a p]; [simpl; intros Hs; by elems|].
    part_001_cases w; intros Hs He; elems; simpl in *; try congruence;
      split; congruence.
  - destruct q as [|a p]; [simpl; intros Hs; by elems|].
    part_001_cases w; intros Hs He; elems; simpl in *; try congruence.
    eexists. split; [repeat f_equal; congruence|].
    unfold Authorization, http.Header_Set. simpl.
    by rewrite lookup_insert_ne, lookup_empty.
Qed.

(** X5.  Once a request is sent, [Do] returns what the HTTP client
    answers, the response or the error, as it is. *)
Theorem transport_answer_is_returned (params postParams : Values)
    (reader : option io.Stream) (body : option string) :
  let answer r :=
    Returned (match w _ (HttpClientDo r) with
              | http.DoOk resp => (Some resp, None)
              | http.DoErr resp err => (resp, Some err)
              end) in
  (∀ r, r ∈ dispatched (trace w (part_000.Do c method q params reader)) ->
        result w (part_000.Do c method q params reader) = answer r)
  ∧ (∀ r, r ∈ dispatched (trace w (contextIO_go.Do c method q params body)) ->
          result w (contextIO_go.Do c method q params body) = answer r)
  ∧ (∀ r, r ∈ dispatched
              (trace w (part_001.Do c method q params postParams)) ->
          result w (part_001.Do c method q params postParams) = answer r).
Proof.
  cbv zeta. split; [|split]; intros r.
  - part_000_Do_cases w; intros Hr; elems; simpl in *; congruence.
  - contextIO_go_Do_runs w q body; intros Hr; elems; simpl in *; congruence.
  - destruct q as [|a p]; [simpl; intros Hr; by elems|].
    part_001_cases w; intros Hr; elems; simpl in *; congruence.
Qed.
End requests_sent.

Section edges_of_Do.
Context `{GoLib} `{Flags}.
Variables (w : World) (c : ContextIO) (method q : string).

(** X6.  [Do] of contextIO.go dereferences its body pointer before it builds
    the request: with a nil body it panics, whatever the method is, a GET
    included, and so does [DoJSON]. *)
Theorem nil_body_panics (params : Values) :
  q ≠ "" ->
  contextIO_go.Do c method q params None = Panic NilPointerDereference
  ∧ contextIO_go.DoJSON c method q params None
    = Panic NilPointerDereference.
Proof.
  intros Hq. destruct q as [|a p]; [done|].
  by unfold contextIO_go.DoJSON, contextIO_go.Do.
Qed.

(** X7.  [Do] of contextIO.go drops the error of [http.NewRequest]: when the
    URL does not parse, the request is nil and the next line panics; the
    caller gets no error and nothing is signed or sent. *)
Theorem unparsable_url_panics (params : Values) (body : string)
    (err : error) :
  q ≠ "" ->
  url_Parse ("https://" +:+ apiHost +:+ with_slash q) = inr err ->
  contextIO_go.Do c method q params (Some body)
  = Panic NilPointerDereference
  ∧ run w (contextIO_go.DoJSON c method q params (Some body))
    = (Panicked NilPointerDereference, []).
Proof.
  intros Hq Hparse. destruct q as [|a p]; [done|].
  assert (E : contextIO_go.Do c method (String a p) params (Some body)
              = Panic NilPointerDereference).
  { unfold contextIO_go.Do. simpl slice01. cbv beta iota.
    rewrite slash_test. unfold http_NewRequest. method_cases;
      by rewrite ?Hparse. }
  unfold contextIO_go.DoJSON. by rewrite E.
Qed.

(** X8.  In part_001 the error of [http.NewRequest] is returned: when
    [http.NewRequest] refuses the method, or the URL does not parse,
    [NewRequest], [Do] and [DoJSON] return nil and that error as it is,
    without any call. *)
Theorem unparsable_url_is_an_error (queryParams postParams : Values)
    (body : option string) (err : error) :
  q ≠ "" ->
  http_NewRequest method
    ("https://" +:+ apiHost +:+ with_slash q +:+ query_suffix queryParams)
    None = inr err ->
  part_001.NewRequest c method q queryParams postParams
  = Ret (None, Some err)
  ∧ part_001.Do c method q queryParams postParams = Ret (None, Some err)
  ∧ part_001.DoJSON c method q queryParams postParams body
    = Ret (None, Some err)
  ∧ (http_validMethod (http_method method) = false
     ∧ err = "net/http: invalid method " +:+ strconv_Quote (http_method method)
     ∨ http_validMethod (http_method method) = true
       ∧ url_Parse ("https://" +:+ apiHost +:+ with_slash q
                    +:+ query_suffix queryParams) = inr err).
Proof.
  intros Hq Hnew. destruct q as [|a p]; [done|].
  assert (E : part_001.NewRequest c method (String a p) queryParams postParams
              = Ret (None, Some err)).
  { unfold part_001.NewRequest. simpl slice01. cbv beta iota zeta.
    rewrite slash_test, part_001_url_string. by rewrite Hnew. }
  unfold part_001.DoJSON, part_001.Do. rewrite E.
  repeat split. revert Hnew. unfold http_NewRequest. method_cases.
  - destruct (url_Parse _); [done|]. intros [= ->]. by right.
  - intros [= <-]. by left.
Qed.

(** X9.  For a method other than PUT, POST and DELETE (compared as
    written, so PATCH and lower-case post are such methods) that
    [http.NewRequest] accepts, [Do] of contextIO.go does not parse the body:
    it signs with an empty form whatever the body holds, under the method
    that [http.NewRequest] has set, and sends the body without a
    Content-Type; an empty body is sent as [http.NoBody]. *)
Theorem other_methods_sign_no_form (params : Values) (body : string)
    (u : url.URL) :
  q ≠ "" ->
  method ∉ ["PUT"; "POST"; "DELETE"] ->
  http_validMethod (http_method method) = true ->
  url_Parse ("https://" +:+ apiHost +:+ with_slash q) = inl u ->
  let t := trace w (contextIO_go.Do c method q params (Some body)) in
  let U := url.set_Opaque (with_slash q) u in
  signed t = [(http_method method, U, ∅)]
  ∧ map (fun r => (http.Method r, ContentType r, http.Body r)) (dispatched t)
    = match w _ (OAuthAuthorizationHeader (client c) None
                   (http_method method) U ∅) with
      | inl _ =>
          [(http_method method, None,
            Some (if decide (body = "") then io_ReadCloser.NoBody
                  else io_ReadCloser.BufferString body))]
      | inr _ => []
      end.
Proof.
  intros Hq Hm Hvalid Hparse. cbv zeta. destruct q as [|a p]; [done|].
  destruct body as [|x b];
    contextIO_go_Do_cases w Hparse;
    try (apply bool_decide_eq_true in Emethod; done);
    (split; [done|]); try done.
  all: unfold ContentType, http.Header_Set; simpl.
  all: by rewrite !lookup_insert_ne, lookup_empty.
Qed.

(** X10.  The method and the body of a request that is sent: the method as
    given and the reader behind a no-op closer in part_000; in contextIO.go
    and part_001 the method that [http.NewRequest] has set, GET for the
    empty one, with the body string in contextIO.go, for every method
    ([http.NoBody] when it is empty), and no body in part_001, whose post
    parameters reach neither the request nor the signature. *)
Theorem body_of_sent_requests (params postParams : Values)
    (reader : option io.Stream) (body : option string) :
  (∀ r, r ∈ dispatched (trace w (part_000.Do c method q params reader)) ->
        http.Method r = method
        ∧ http.Body r
          = Some (match reader with
                  | None => io_ReadCloser.NopCloserNil
                  | Some s => io_ReadCloser.NopCloserStream s
                  end))
  ∧ (∀ r, r ∈ dispatched (trace w (contextIO_go.Do c method q params body)) ->
          http.Method r = http_method method
          ∧ http_validMethod (http.Method r) = true
          ∧ ∃ b, body = Some b
                 ∧ http.Body r
                   = Some (if decide (b = "") then io_ReadCloser.NoBody
                           else io_ReadCloser.BufferString b))
  ∧ (∀ r, r ∈ dispatched
              (trace w (part_001.Do c method q params postParams)) ->
          http.Method r = http_method method
          ∧ http_validMethod (http.Method r) = true
          ∧ http.Body r = None
          ∧ http.PostForm r = ∅)
  ∧ (∀ s, s ∈ signed (trace w (part_001.Do c method q params postParams)) ->
          s.2 = ∅).
Proof.
  split; [|split; [|split]].
  - intros r. part_000_Do_cases w; intros Hr; elems; done.
  - intros r. contextIO_go_Do_runs w q body; intros Hr; elems;
      (split; [done|]); (split; [done|]); eexists; (split; [done|]);
      simpl; by destruct b.
  - intros r. destruct q as [|a p]; [simpl; intros Hr; by elems|].
    part_001_cases w; intros Hr; elems; done.
  - intros s. destruct q as [|a p]; [simpl; intros Hs; by elems|].
    part_001_cases w; intros Hs; elems; done.
Qed.
End edges_of_Do.

Lemma nil_body_panics_witness :
  contextIO_go.Do (NewContextIO "k" "s") "GET" "/2.0/accounts" ∅ None
  = Panic NilPointerDereference.
Proof.
  refine (proj1 (nil_body_panics (NewContextIO "k" "s") "GET" "/2.0/accounts"
                   ∅ _)).
  discriminate.
Defined.

Lemma unparsable_url_panics_witness :
  url_Parse "https://api.context.io/2.0/%zz"
  = inr ("parse " +:+ ref.Quote "https://api.context.io/2.0/%zz" +:+ ": "
         +:+ ref.EscapeError "%zz")
  ∧ contextIO_go.Do (NewContextIO "k" "s") "GET" "2.0/%zz" ∅ (Some "")
    = Panic NilPointerDereference.
Proof.
  split; [reflexivity|].
  refine (proj1 (unparsable_url_panics ref.world (NewContextIO "k" "s") "GET"
                   "2.0/%zz" ∅ ""
                   ("parse " +:+ ref.Quote "https://api.context.io/2.0/%zz"
                    +:+ ": " +:+ ref.EscapeError "%zz") _ _)).
  - discriminate.
  - reflexivity.
Defined.

Lemma unparsable_url_is_an_error_witness :
  part_001.Do (NewContextIO "k" "s") "GET" "2.0/%zz" ∅ ∅
  = Ret (None,
         Some ("parse " +:+ ref.Quote "https://api.context.io/2.0/%zz"
               +:+ ": " +:+ ref.EscapeError "%zz")).
Proof.
  refine (proj1 (proj2 (unparsable_url_is_an_error (NewContextIO "k" "s")
                          "GET" "2.0/%zz" ∅ ∅ None
                          ("parse "
                           +:+ ref.Quote "https://api.context.io/2.0/%zz"
                           +:+ ": " +:+ ref.EscapeError "%zz")
                          _ _))).
  - discriminate.
  - reflexivity.
Defined.

(** A method with a space is refused before anything is signed. *)
Example invalid_method_example :
  part_001.Do (NewContextIO "k" "s") "GET IT" "2.0/accounts" ∅ ∅
  = Ret (None, Some ("net/http: invalid method " +:+ ref.Quote "GET IT"))
  ∧ contextIO_go.Do (NewContextIO "k" "s") "GET IT" "2.0/accounts" ∅
      (Some "")
    = Panic NilPointerDereference
  ∧ map (fun r => http.Method r)
      (dispatched (trace ref.world
         (part_001.Do (NewContextIO "k" "s") "" "2.0/accounts" ∅ ∅)))
    = ["GET"].
Proof. repeat split; vm_compute; reflexivity. Qed.

Lemma other_methods_sign_no_form_witness :
  signed (trace ref.world
            (contextIO_go.Do (NewContextIO "k" "s") "PATCH" "2.0/accounts" ∅
               (Some "a=%zz")))
  = [("PATCH",
      url.mkURL "https" "/2.0/accounts" "api.context.io" "/2.0/accounts" "" ""
        false,
      ∅)].
Proof.
  refine (proj1 (other_methods_sign_no_form ref.world (NewContextIO "k" "s")
                   "PATCH" "2.0/accounts" ∅ "a=%zz"
                   (url.mkURL "https" "" "api.context.io" "/2.0/accounts"
                      "" "" false) _ _ _ _)).
  - discriminate.
  - intros Hm.
    repeat match goal with
           | H : _ ∈ _ :: _ |- _ => inversion H; clear H; subst
           | H : _ ∈ [] |- _ => inversion H
           end.
  - reflexivity.
  - reflexivity.
Defined.

Section more_on_AttachFile.
Context `{GoLib}.
Variables (w : World) (c : ContextIO) (req : http.Request).
Variables (fieldName fileName : string).

(** X11.  The only error [AttachFile] reports is that of [os.Open]: it
    returns an error exactly when the file does not open, that error as it
    is, after that one call and with the request untouched.  Once the file
    is open it returns nil, also when the reading of the file stops on an
    error. *)
Theorem AttachFile_fails_only_on_open :
  (∀ err,
     (∃ req', result w (part_001.AttachFile c req fieldName fileName)
              = Returned (req', Some err))
     <-> w _ (OsOpen fileName) = inr err)
  ∧ (∀ err,
       w _ (OsOpen fileName) = inr err ->
       run w (part_001.AttachFile c req fieldName fileName)
       = (Returned (req, Some err), [Event (OsOpen fileName) (inr err)]))
  ∧ (∀ f,
       w _ (OsOpen fileName) = inl f ->
       ∃ req', result w (part_001.AttachFile c req fieldName fileName)
               = Returned (req', None)).
Proof.
  unfold result. rewrite AttachFile_run.
  destruct (w _ (OsOpen fileName)) as [f|e]; cbv zeta; simpl.
  - split; [|split]; [|done|by eexists].
    intros err. split; [by intros [req' [=]]|done].
  - split; [|split]; [|by intros err [= <-]|done].
    intros err. split; [by intros [req' [= <- <-]]|].
    intros [= <-]. by eexists.
Qed.
End more_on_AttachFile.

Section closing_the_response.
Context `{GoLib} `{Flags}.
Variables (w : World).

(** The trace of the part of [DoJSON] after the call of [Do]. *)
Lemma close_after (m : go (option http.Response * option error)) :
  trace w
    (let* (response, err) := m in
     match err with
     | Some err => Ret (None, Some err)
     | None =>
         match response with
         | None => Panic NilPointerDereference
         | Some response =>
             let '(json, err) := ioutil_ReadAll (http.RespBody response) in
             let* _ := call (BodyClose response) in
             Ret (Some json, err)
         end
     end)
  = trace w m
    ++ match result w m with
       | Returned (Some response, None) => [Event (BodyClose response) tt]
       | _ => []
       end.
Proof.
  unfold trace, result. rewrite run_bind.
  destruct (run w m) as [[[[r|] [e|]]|p] t]; simpl;
    rewrite ?app_nil_r; try done.
  by destruct (w _ (BodyClose r)).
Qed.

(** X14.  [DoJSON] makes the calls of [Do] and then, when [Do] has returned
    a response without an error, one more: it closes the body of that
    response, also when the reading of the body has failed.  After an error
    of [Do] it closes nothing. *)
Theorem DoJSON_closes_the_body (c : ContextIO) (method q : string)
    (params postParams : Values) (reader : option io.Stream)
    (body : option string) :
  let closing (o : outcome (option http.Response * option error)) :=
    match o with
    | Returned (Some response, None) => [Event (BodyClose response) tt]
    | _ => []
    end in
  trace w (part_000.DoJSON c method q params reader)
  = trace w (part_000.Do c method q params reader)
    ++ closing (result w (part_000.Do c method q params reader))
  ∧ trace w (contextIO_go.DoJSON c method q params body)
    = trace w (contextIO_go.Do c method q params body)
      ++ closing (result w (contextIO_go.Do c method q params body))
  ∧ trace w (part_001.DoJSON c method q params postParams body)
    = trace w (part_001.Do c method q params postParams)
      ++ closing (result w (part_001.Do c method q params postParams)).
Proof.
  cbv zeta. unfold part_000.DoJSON, contextIO_go.DoJSON, part_001.DoJSON.
  by rewrite !close_after.
Qed.

(** X15.  A file attached to a request of [NewRequest], when the parse
    that ends [AttachFile] reads nothing of the new body, as on a request
    without a Content-Type: the post parameters given to [NewRequest] are
    not in the request, so the body is the file part alone, unread; the
    method, the one that [http.NewRequest] has set, the URL and the
    Authorization header stay those of [NewRequest], which was computed over
    an empty form. *)
Theorem AttachFile_after_NewRequest (c : ContextIO) (method q : string)
    (queryParams postParams : Values) (r : part_001.Request)
    (fieldName fileName : string) (f : os.File) :
  result w (part_001.NewRequest c method q queryParams postParams)
  = Returned (Some r, None) ->
  w _ (OsOpen fileName) = inl f ->
  leaves_body_unread (part_001.Request_ r) ->
  signed (trace w (part_001.NewRequest c method q queryParams postParams))
  = [(http_method method, http.URL (part_001.Request_ r), ∅)]
  ∧ ∃ req',
      result w (part_001.AttachFile c (part_001.Request_ r) fieldName fileName)
      = Returned (req', None)
      ∧ http.Body req'
        = Some (io_ReadCloser.MultipartBuffer
                  {| multipart.Boundary := w _ RandomBoundary;
                     multipart.parts :=
                       [multipart.FormFile fieldName (filepath_Base fileName)
                          (io.data f)];
                     multipart.closed := true |})
      ∧ http.BodyOffset req' = 0%nat
      ∧ http.Method req' = http_method method
      ∧ http_validMethod (http.Method req') = true
      ∧ http.URL req' = http.URL (part_001.Request_ r)
      ∧ Authorization req' = Authorization (part_001.Request_ r).
Proof.
  intros Hnew Hopen Hunread.
  assert (Hr : signed (trace w (part_001.NewRequest c method q queryParams
                                  postParams))
               = [(http_method method, http.URL (part_001.Request_ r), ∅)]
               ∧ http.PostForm (part_001.Request_ r) = ∅
               ∧ http.Method (part_001.Request_ r) = http_method method
               ∧ http_validMethod (http_method method) = true).
  { revert Hnew. destruct q as [|a p]; [done|].
    part_001_cases w; intros Hnew; by simplify_eq. }
  destruct Hr as (Hsigned & Hpost & Hmethod & Hvalid). split; [done|].
  unfold result. rewrite AttachFile_run, Hopen. cbv zeta.
  destruct (w _ (MapRange (http.PostForm (part_001.Request_ r))))
    as [form Hform]. simpl.
  rewrite Hpost, map_to_list_empty in Hform.
  apply Permutation_nil_r in Hform as ->.
  eexists. split; [done|]. repeat split; try done.
  - apply Hunread.
  - simpl. by rewrite Hmethod.
  - unfold Authorization, http.Header_Set. simpl.
    by rewrite lookup_insert_ne.
Qed.
End closing_the_response.

Lemma AttachFile_after_NewRequest_witness :
  let r :=
    {| part_001.Request_ :=
         http.mkRequest "POST"
           (url.mkURL "https" "/2.0/files" "api.context.io" "/2.0/files" ""
              "" false)
           (<["Authorization" :=
                ["OAuth oauth_consumer_key=k, oauth_signature=POST%26https%3A%2F%2Fapi.context.io%2F2.0%2Ffiles%26"]]>
              (<["User-Agent" := ["GoContextIO Simple Library v. 0.1"]]> ∅))
           None 0 "api.context.io" ∅ ∅ None 0;
       part_001.C := NewContextIO "k" "s";
       part_001.Query := "/2.0/files";
       part_001.Attachment := "" |} in
  result ref.world
    (part_001.NewRequest (NewContextIO "k" "s") "POST" "2.0/files" ∅
       {[ "a" := ["1"] ]})
  = Returned (Some r, None)
  ∧ leaves_body_unread (part_001.Request_ r)
  ∧ ∃ req',
      result ref.world
        (part_001.AttachFile (NewContextIO "k" "s") (part_001.Request_ r)
           "file" "/tmp/photo.png")
      = Returned (req', None)
      ∧ http.Body req'
        = Some (io_ReadCloser.MultipartBuffer
                  (multipart.mkWriter "4f6d1c"
                     [multipart.FormFile "file" "photo.png" "PNG"] true))
      ∧ http.BodyOffset req' = 0%nat.
Proof.
  intros r.
  assert (Hnew : result ref.world
                   (part_001.NewRequest (NewContextIO "k" "s") "POST"
                      "2.0/files" ∅ {[ "a" := ["1"] ]})
                 = Returned (Some r, None))
    by (vm_compute; reflexivity).
  assert (Hunread : leaves_body_unread (part_001.Request_ r))
    by (intros [body|]; vm_compute; reflexivity).
  split; [exact Hnew|]. split; [exact Hunread|].
  destruct (AttachFile_after_NewRequest ref.world (NewContextIO "k" "s")
              "POST" "2.0/files" ∅ {[ "a" := ["1"] ]} r "file"
              "/tmp/photo.png" (io.mkStream "PNG" None)
              Hnew eq_refl Hunread)
    as (_ & req' & E1 & E2 & E3 & _).
  exists req'. split; [exact E1|]. split; [exact E2|exact E3].
Defined.

Section panics_and_signing_again.
Context `{GoLib} `{Flags}.
Variables (w : World) (c : ContextIO) (method q : string).

(** [Do] returns a response or an error, never nil and nil. *)
Lemma Do_returns_something (params postParams : Values)
    (reader : option io.Stream) (body : option string) :
  result w (part_000.Do c method q params reader) ≠ Returned (None, None)
  ∧ result w (contextIO_go.Do c method q params body) ≠ Returned (None, None)
  ∧ result w (part_001.Do c method q params postParams)
    ≠ Returned (None, None).
Proof.
  split; [|split].
  - part_000_Do_cases w; done.
  - contextIO_go_Do_runs w q body; done.
  - destruct q as [|a p]; [done|]. part_001_cases w; done.
Qed.

(** X16.  When the code of [Do] panics, the calls it makes being taken to
    return.  In part_000 never: the empty path and the nil reader go into
    the request as they are.  In contextIO.go exactly on the empty path, on
    a nil body, on a method that [http.NewRequest] refuses and on a URL that
    does not parse.  In part_001 exactly on the empty path.  [DoJSON] panics
    when its [Do] does and in no other case. *)
Theorem when_Do_panics (params postParams : Values)
    (reader : option io.Stream) (body : option string) :
  (∃ v, result w (part_000.Do c method q params reader) = Returned v)
  ∧ ((∃ p, result w (contextIO_go.Do c method q params body) = Panicked p)
     <-> q = "" ∨ body = None
         ∨ http_validMethod (http_method method) = false
         ∨ ∃ err, url_Parse ("https://" +:+ apiHost +:+ with_slash q)
                  = inr err)
  ∧ ((∃ p, result w (part_001.Do c method q params postParams) = Panicked p)
     <-> q = "")
  ∧ (∃ v, result w (part_000.DoJSON c method q params reader) = Returned v)
  ∧ ((∃ p, result w (contextIO_go.DoJSON c method q params body)
           = Panicked p)
     <-> ∃ p, result w (contextIO_go.Do c method q params body) = Panicked p)
  ∧ ((∃ p, result w (part_001.DoJSON c method q params postParams body)
           = Panicked p)
     <-> ∃ p, result w (part_001.Do c method q params postParams)
              = Panicked p).
Proof.
  destruct (Do_returns_something params postParams reader body)
    as (N0 & N1 & N2).
  assert (P0 : ∃ v, result w (part_000.Do c method q params reader)
                    = Returned v)
    by (part_000_Do_cases w; by eexists).
  split; [done|]. split; [|split; [|split; [|split]]].
  - destruct q as [|a p].
    { split; [by left|]. intros _. by eexists. }
    destruct body as [b|].
    2: { split; [by right; left|]. intros _. by eexists. }
    destruct (http_validMethod (http_method method)) eqn:Hvalid.
    2: { split; [by intros _; right; right; left|]. intros _.
         exists NilPointerDereference.
         unfold contextIO_go.Do, result. simpl slice01. cbv beta iota.
         rewrite slash_test. unfold http_NewRequest. by method_cases. }
    destruct (url_Parse ("https://" +:+ apiHost +:+ with_slash (String a p)))
      as [u|e] eqn:Hparse.
    + split.
      * intros [p0 Hp]. exfalso. revert Hp.
        contextIO_go_Do_cases w Hparse; done.
      * intros [?|[?|[?|[err ?]]]]; done.
    + split; [intros _; right; right; right; by eexists|]. intros _.
      exists NilPointerDereference.
      unfold contextIO_go.Do, result. simpl slice01. cbv beta iota.
      rewrite slash_test. unfold http_NewRequest. method_cases.
      by rewrite Hparse.
  - destruct q as [|a p].
    { split; [done|]. intros _. by eexists. }
    split; [|done]. intros [p0 Hp]. exfalso. revert Hp.
    part_001_cases w; done.
  - unfold part_000.DoJSON. rewrite read_all_after.
    destruct P0 as [v Hv]. rewrite Hv in N0 |- *.
    destruct v as [[r|] [e|]]; simpl; try done; by eexists.
  - unfold contextIO_go.DoJSON. rewrite read_all_after.
    destruct (result w (contextIO_go.Do c method q params body))
      as [[[r|] [e|]]|p0]; simpl; try done.
    all: split; intros [p1 Hp]; try done; by eexists.
  - unfold part_001.DoJSON. rewrite read_all_after.
    destruct (result w (part_001.Do c method q params postParams))
      as [[[r|] [e|]]|p0]; simpl; try done.
    all: split; intros [p1 Hp]; try done; by eexists.
Qed.

(** X17.  [Sign] makes one OAuth computation, over the method, the URL and
    the post form of the request, and sends nothing.  It changes nothing of
    the request but the Authorization header, which on success has the value
    computed as its only value, whatever it held before; on an error the
    request is as it was. *)
Theorem Sign_frame (r : part_001.Request) :
  ∃ (r' : part_001.Request) (err : option error) (t : list event),
    run w (part_001.Sign r) = (Returned (r', err), t)
    ∧ signed t
      = [(http.Method (part_001.Request_ r), http.URL (part_001.Request_ r),
          http.PostForm (part_001.Request_ r))]
    ∧ dispatched t = []
    ∧ http.set_Header (http.Header (part_001.Request_ r))
        (part_001.Request_ r')
      = part_001.Request_ r
    ∧ part_001.set_Request (part_001.Request_ r) r' = r
    ∧ (∀ k, k ≠ "Authorization" ->
         http.Header (part_001.Request_ r') !! k
         = http.Header (part_001.Request_ r) !! k)
    ∧ match w _ (OAuthAuthorizationHeader (client (part_001.C r)) None
                   (http.Method (part_001.Request_ r))
                   (http.URL (part_001.Request_ r))
                   (http.PostForm (part_001.Request_ r))) with
      | inl h => err = None ∧ Authorization (part_001.Request_ r') = Some [h]
      | inr e => err = Some e ∧ r' = r
      end.
Proof.
  unfold part_001.Sign. simpl.
  destruct (w _ (OAuthAuthorizationHeader _ _ _ _ _)) as [h|e]; simpl.
  - eexists _, _, _. split; [done|]. destruct r as [[] ? ? ?]. simpl.
    repeat split; try done.
    + intros k Hk. unfold http.Header_Set. by rewrite lookup_insert_ne.
    + unfold Authorization, http.Header_Set. simpl.
      by rewrite lookup_insert_eq.
  - eexists _, _, _. split; [done|]. destruct r as [[] ? ? ?]. simpl.
    repeat split; done.
Qed.
End panics_and_signing_again.
